(** * chatForum: the retrieval core of [rag_system.py]

    A shallow embedding of the classes [AgnosRAG] and [AgnosHealthRAG]:
    the text normalizer [preprocess_text], the index operations
    [build_index], [save_index], [load_index], the ranker [search] and
    the answer composer [answer_question].

    - A Python [str] is a list of Unicode code points.
    - A similarity score (a finite float) is a rational number; the code
      only compares scores with each other and with 0.
    - The methods of [AgnosRAG] mutate [self] and raise exceptions, so
      they live in a state-and-exception monad over the object's four
      fields; the state reached when an exception is raised is kept.
    - scikit-learn and numpy are libraries, not part of the program: the
      fitted vectorizer and [argsort] are interfaces. *)

From Stdlib Require Import QArith.
From stdpp Require Import gmap strings list sorting.
From Stdlib Require Import Permutation.

Local Open Scope N_scope.

(** ** Text *)

Definition str := list N.

(** ASCII literals of the development, as code points. *)
Definition of_ascii (s : string) : str :=
  List.map Ascii.N_of_ascii (String.list_ascii_of_string s).

Definition SPACE : N := 32.

(** [str.isspace], which is also the regular expression class [\s] on a
    [str] pattern. *)
Definition isspace (c : N) : bool :=
  ((9 <=? c) && (c <=? 13)) || ((28 <=? c) && (c <=? 32))
  || (c =? 133) || (c =? 160) || (c =? 5760)
  || ((8192 <=? c) && (c <=? 8202))
  || (c =? 8232) || (c =? 8233) || (c =? 8239) || (c =? 8287)
  || (c =? 12288).

Definition is_ascii (c : N) : bool := c <? 128.

Definition ascii_isalnum (c : N) : bool :=
  ((48 <=? c) && (c <=? 57)) || ((65 <=? c) && (c <=? 90))
  || ((97 <=? c) && (c <=? 122)).

Definition ascii_lower (c : N) : N :=
  if (65 <=? c) && (c <=? 90) then c + 32 else c.

(** The Unicode tables beyond ASCII that [re] and [str.lower] consult:
    which code points are alphanumeric, and the lower-casing of a string
    that is not pure ASCII (it is not a per-character map). *)
Class UnicodeData := {
  isalnum_ext : N -> bool;
  lower_ext : str -> str
}.

(** Tables that know nothing beyond ASCII; used to run examples. *)
Definition ascii_tables : UnicodeData :=
  {| isalnum_ext := fun _ => false; lower_ext := fun s => s |}.

Section Normalizer.
Context {U : UnicodeData}.

(** The class [\w]. *)
Definition isword (c : N) : bool :=
  if is_ascii c then ascii_isalnum c || (c =? 95) else isalnum_ext c.

(** The range [\u0E00-\u0E7F]. *)
Definition is_thai (c : N) : bool := (3584 <=? c) && (c <=? 3711).

(** The literals [.,!?\-] of the character class. *)
Definition is_basic_punct (c : N) : bool :=
  (c =? 46) || (c =? 44) || (c =? 33) || (c =? 63) || (c =? 45).

(** [re.sub(r'\s+', ' ', text)]: [in_run] tells that the previous
    character belonged to the whitespace run being replaced. *)
Fixpoint sub_whitespace_from (in_run : bool) (text : str) : str :=
  match text with
  | [] => []
  | c :: rest =>
      if isspace c
      then (if in_run then sub_whitespace_from true rest
            else SPACE :: sub_whitespace_from true rest)
      else c :: sub_whitespace_from false rest
  end.

Definition sub_whitespace (text : str) : str := sub_whitespace_from false text.

(** [re.sub(r'[^\w\s\u0E00-\u0E7F.,!?\-]', ' ', text)]. *)
Definition in_kept_class (c : N) : bool :=
  isword c || isspace c || is_thai c || is_basic_punct c.

Definition sub_special (text : str) : str :=
  List.map (fun c => if in_kept_class c then c else SPACE) text.

(** [str.strip()]. *)
Fixpoint lstrip (text : str) : str :=
  match text with
  | [] => []
  | c :: rest => if isspace c then lstrip rest else text
  end.

Definition strip (text : str) : str := rev (lstrip (rev (lstrip text))).

(** [str.lower()]. *)
Definition lower (text : str) : str :=
  if forallb is_ascii text then List.map ascii_lower text else lower_ext text.

Definition preprocess_text (text : str) : str :=
  match text with
  | [] => []
  | _ => lower (strip (sub_special (sub_whitespace text)))
  end.

End Normalizer.

(** A whitespace run longer than one character: two adjacent whitespace
    characters. *)
Fixpoint has_whitespace_run (text : str) : bool :=
  match text with
  | c :: (d :: _) as rest => (isspace c && isspace d) || has_whitespace_run rest
  | _ => false
  end.

Local Close Scope N_scope.

(** ** Exceptions and the monad of the methods *)

Inductive exn :=
| ValueError_no_valid_documents
    (* raise ValueError("No valid documents to index") *)
| ValueError_index_not_built
    (* raise ValueError("Index not built. Call build_index() first.") *)
| ValueError_sklearn       (* raised inside TfidfVectorizer.fit_transform *)
| NotFittedError           (* TfidfVectorizer.transform before any fit *)
| IndexError               (* list index out of range *)
| FileNotFoundError (path : string).

Inductive outcome (A : Type) :=
| Returned (a : A)
| Raised (e : exn).
Arguments Returned {A} a.
Arguments Raised {A} e.

(** What a call returned, or [default] when it raised. *)
Definition returned_or {A : Type} (default : A) (o : outcome A) : A :=
  match o with
  | Returned a => a
  | Raised _ => default
  end.

(** ** The libraries *)

(** The arguments of the [TfidfVectorizer] constructor. *)
Record TfidfParams := {
  max_features : nat;
  min_df : nat;
  max_df : Q;
  ngram_range : nat * nat
}.

(** scikit-learn, as far as the program uses it: fitting learns a
    vocabulary with its idf weights from the texts, or raises; a fitted
    vectorizer turns each text into one row, on its own; the cosine
    similarity of two rows is a number. *)
Class Sklearn := {
  Fitted : Type;
  Row : Type;
  fit : TfidfParams -> list str -> option Fitted;
  transform_row : Fitted -> str -> Row;
  cosine : Row -> Row -> Q
}.

(** A matrix: its rows. *)
Abbreviation Matrix := (list Row).

(** [a[i]] of a float array, for an index in range. *)
Definition at_index (a : list Q) (i : nat) : Q := nth i a 0%Q.

(** numpy's [argsort]. *)
Class ArgSort := {
  argsort : list Q -> list nat
}.

(** What numpy promises of it: the indices of the array, ordered so that
    the values they select ascend. How equal values are ordered is left
    open for the default sorting kind. *)
Definition argsort_sorts (S : ArgSort) : Prop :=
  forall a,
    Permutation (argsort a) (seq 0 (length a))
    /\ StronglySorted (fun i j => (at_index a i <= at_index a j)%Q) (argsort a).

(** A stable [argsort] keeps equal values in index order. *)
Definition stable_argsort (S : ArgSort) : Prop :=
  forall a,
    StronglySorted
      (fun i j => (at_index a i == at_index a j)%Q -> i < j) (argsort a).

(** ** The object *)

Section Index.
Context {U : UnicodeData} {SK : Sklearn} {AS : ArgSort}.

(** A [TfidfVectorizer] object: its parameters and, once fitted, what
    fitting learnt. *)
Record TfidfVectorizer := {
  params : TfidfParams;
  fitted : option Fitted
}.

Record Metadata := {
  url : str;
  title : str;
  original_content : str
}.

Record AgnosRAG := {
  vectorizer : option TfidfVectorizer;
  tfidf_matrix : option Matrix;
  documents : list str;
  metadata : list Metadata
}.

(** [AgnosRAG.__init__] *)
Definition init : AgnosRAG :=
  {| vectorizer := None; tfidf_matrix := None; documents := []; metadata := [] |}.

Definition M (A : Type) : Type := AgnosRAG -> outcome A * AgnosRAG.

#[export] Instance M_ret : MRet M := fun A a self => (Returned a, self).
#[export] Instance M_bind : MBind M := fun A B f m self =>
  match m self with
  | (Returned a, self') => f a self'
  | (Raised e, self') => (Raised e, self')
  end.

Definition raise {A} (e : exn) : M A := fun self => (Raised e, self).
Definition get : M AgnosRAG := fun self => (Returned self, self).
Definition modify (f : AgnosRAG -> AgnosRAG) : M unit :=
  fun self => (Returned tt, f self).

Definition set_vectorizer (v : option TfidfVectorizer) : M unit :=
  modify (fun self =>
    {| vectorizer := v; tfidf_matrix := tfidf_matrix self;
       documents := documents self; metadata := metadata self |}).
Definition set_tfidf_matrix (m : option Matrix) : M unit :=
  modify (fun self =>
    {| vectorizer := vectorizer self; tfidf_matrix := m;
       documents := documents self; metadata := metadata self |}).
Definition set_documents (d : list str) : M unit :=
  modify (fun self =>
    {| vectorizer := vectorizer self; tfidf_matrix := tfidf_matrix self;
       documents := d; metadata := metadata self |}).
Definition set_metadata (d : list Metadata) : M unit :=
  modify (fun self =>
    {| vectorizer := vectorizer self; tfidf_matrix := tfidf_matrix self;
       documents := documents self; metadata := d |}).

(** *** scikit-learn's methods, on the interface *)

(** [vec.fit_transform(texts)]: fits [vec] in place and returns the
    matrix of the texts; [None] when fitting raises. *)
Definition fit_transform (vec : TfidfVectorizer) (texts : list str)
  : option (TfidfVectorizer * Matrix) :=
  match fit (params vec) texts with
  | Some f =>
      Some ({| params := params vec; fitted := Some f |},
            List.map (transform_row f) texts)
  | None => None
  end.

(** [vec.transform(texts)] *)
Definition transform (vec : TfidfVectorizer) (texts : list str)
  : option Matrix :=
  match fitted vec with
  | Some f => Some (List.map (transform_row f) texts)
  | None => None
  end.

(** [cosine_similarity(X, Y)]: one row per row of [X], one entry per row
    of [Y]. *)
Definition cosine_similarity (X Y : Matrix) : list (list Q) :=
  List.map (fun x => List.map (cosine x) Y) X.

Definition flatten (a : list (list Q)) : list Q := concat a.

(** *** [build_index] *)

(** A raw document is a dict from field names to strings. *)
Definition doc_get (doc : gmap string str) (key : string) : str :=
  default [] (doc !! key).

Definition combined_text (doc : gmap string str) : str :=
  doc_get doc "title" ++ [SPACE] ++ doc_get doc "content".

Definition metadata_of (doc : gmap string str) : Metadata :=
  {| url := doc_get doc "url";
     title := doc_get doc "title";
     original_content := take 1000 (doc_get doc "content") |}.

(** The loop of [build_index]; [texts] is the local list. *)
Fixpoint index_documents (docs : list (gmap string str)) (texts : list str)
  : M (list str) :=
  match docs with
  | [] => mret texts
  | doc :: rest =>
      let cleaned_text := preprocess_text (combined_text doc) in
      if 50 <? length cleaned_text then
        self ← get;
        set_documents (documents self ++ [cleaned_text]);;
        self ← get;
        set_metadata (metadata self ++ [metadata_of doc]);;
        index_documents rest (texts ++ [cleaned_text])
      else index_documents rest texts
  end.

(** [TfidfVectorizer(max_features=5000, min_df=1, max_df=0.8,
    ngram_range=(1, 2))] *)
Definition new_vectorizer : TfidfVectorizer :=
  {| params := {| max_features := 5000; min_df := 1;
                  max_df := 8 # 10; ngram_range := (1, 2) |};
     fitted := None |}.

Definition build_index (docs : list (gmap string str)) : M unit :=
  set_documents [];;
  set_metadata [];;
  texts ← index_documents docs [];
  match texts with
  | [] => raise ValueError_no_valid_documents
  | _ =>
      let vec := new_vectorizer in
      set_vectorizer (Some vec);;
      match fit_transform vec texts with
      | None => raise ValueError_sklearn
      | Some (vec', matrix) =>
          set_vectorizer (Some vec');;
          set_tfidf_matrix (Some matrix)
      end
  end.

(** The normalized text of a raw document, the length filter of the
    loop, and the documents that pass it. *)
Definition cleaned_text_of (doc : gmap string str) : str :=
  preprocess_text (combined_text doc).

Definition survives (doc : gmap string str) : bool :=
  50 <? length (cleaned_text_of doc).

Definition surviving (docs : list (gmap string str)) : list (gmap string str) :=
  List.filter survives docs.

(** *** [save_index] and [load_index] *)

(** The dict pickled into the metadata file. *)
Record PickledData := {
  data_documents : list str;
  data_metadata : list Metadata
}.

(** The pickle files on disk, by file name, each kind of file holding
    the kind of object [save_index] writes into it. *)
Record FileSystem := {
  vectorizer_files : gmap string (option TfidfVectorizer);
  matrix_files : gmap string (option Matrix);
  metadata_files : gmap string PickledData
}.

Definition vectorizer_path (index_path : string) : string :=
  index_path +:+ "_vectorizer.pkl".
Definition matrix_path (index_path : string) : string :=
  index_path +:+ "_matrix.pkl".
Definition metadata_path (index_path : string) : string :=
  index_path +:+ "_metadata.pkl".

(** [save_index] leaves the object alone and writes three files. *)
Definition save_index (self : AgnosRAG) (index_path : string)
    (fs : FileSystem) : FileSystem :=
  {| vectorizer_files :=
       <[vectorizer_path index_path := vectorizer self]> (vectorizer_files fs);
     matrix_files :=
       <[matrix_path index_path := tfidf_matrix self]> (matrix_files fs);
     metadata_files :=
       <[metadata_path index_path :=
           {| data_documents := documents self;
              data_metadata := metadata self |}]> (metadata_files fs) |}.

(** [pickle.load(open(path, 'rb'))] on one kind of file. *)
Definition load_pickle {A} (files : gmap string A) (path : string) : M A :=
  match files !! path with
  | Some obj => mret obj
  | None => raise (FileNotFoundError path)
  end.

Definition load_index (fs : FileSystem) (index_path : string) : M unit :=
  vec ← load_pickle (vectorizer_files fs) (vectorizer_path index_path);
  set_vectorizer vec;;
  matrix ← load_pickle (matrix_files fs) (matrix_path index_path);
  set_tfidf_matrix matrix;;
  data ← load_pickle (metadata_files fs) (metadata_path index_path);
  set_documents (data_documents data);;
  set_metadata (data_metadata data).

(** *** [search] *)

Record SearchResult := {
  score : Q;
  content : str;
  result_metadata : Metadata
}.

(** [a[start:]] for a Python integer [start]. *)
Definition slice_from {A} (start : Z) (a : list A) : list A :=
  let n := Z.of_nat (length a) in
  let lo := if (start <? 0)%Z then Z.max 0 (start + n) else Z.min start n in
  drop (Z.to_nat lo) a.

(** [x > y] on scores. *)
Definition Qgt_bool (x y : Q) : bool := negb (Qle_bool x y).

(** The loop of [search]; [results] is the local list. *)
Fixpoint collect_results (similarities : list Q) (top_indices : list nat)
    (results : list SearchResult) : M (list SearchResult) :=
  match top_indices with
  | [] => mret results
  | idx :: rest =>
      if Qgt_bool (at_index similarities idx) 0 then
        self ← get;
        match documents self !! idx, metadata self !! idx with
        | Some doc, Some meta =>
            collect_results similarities rest
              (results ++ [{| score := at_index similarities idx;
                              content := doc;
                              result_metadata := meta |}])
        | _, _ => raise IndexError
        end
      else collect_results similarities rest results
  end.

(** [similarities.argsort()[-k:][::-1]] *)
Definition top_indices_of (similarities : list Q) (k : Z) : list nat :=
  rev (slice_from (- k) (argsort similarities)).

Definition search (query : str) (k : Z) : M (list SearchResult) :=
  self ← get;
  match vectorizer self, tfidf_matrix self with
  | Some vec, Some matrix =>
      let processed_query := preprocess_text query in
      match transform vec [processed_query] with
      | None => raise NotFittedError
      | Some query_vector =>
          let similarities := flatten (cosine_similarity query_vector matrix) in
          let top_indices := top_indices_of similarities k in
          collect_results similarities top_indices []
      end
  | _, _ => raise ValueError_index_not_built
  end.

(** The similarity array [search] computes for a fitted vectorizer, a
    matrix and a query. *)
Definition similarities_of (f : Fitted) (matrix : Matrix) (query : str)
  : list Q :=
  flatten (cosine_similarity [transform_row f (preprocess_text query)] matrix).

(** The indices whose results [search] returns, in order. *)
Definition hits_of (similarities : list Q) (k : Z) : list nat :=
  List.filter (fun idx => Qgt_bool (at_index similarities idx) 0)
    (top_indices_of similarities k).

(** [result] is the dict [search] makes for index [idx]. *)
Definition result_of (self : AgnosRAG) (similarities : list Q)
    (idx : nat) (result : SearchResult) : Prop :=
  score result = at_index similarities idx
  /\ documents self !! idx = Some (content result)
  /\ metadata self !! idx = Some (result_metadata result).

(** An index as [build_index] leaves it: a fitted vectorizer, and a
    matrix with one row per document and per metadata record. *)
Definition ready (self : AgnosRAG) (f : Fitted) (matrix : Matrix) : Prop :=
  (exists vec, vectorizer self = Some vec /\ fitted vec = Some f)
  /\ tfidf_matrix self = Some matrix
  /\ length matrix = length (documents self)
  /\ length matrix = length (metadata self).

(** *** [AgnosHealthRAG.answer_question]; [self.rag] is the object. *)

Record Source := {
  source_title : str;
  source_url : str;
  source_score : Q;
  content_snippet : str
}.

Record Answer := {
  answer : str;
  sources : list Source;
  confidence : Q
}.

Definition NO_INFORMATION_ANSWER : str := List.map N.of_nat
  [3586; 3629; 3629; 3616; 3633; 3618; 32; 3652; 3617; 3656; 3614; 3610;
   3586; 3657; 3629; 3617; 3641; 3621; 3607; 3637; 3656; 3648; 3585; 3637;
   3656; 3618; 3623; 3586; 3657; 3629; 3591; 3651; 3609; 3615; 3629; 3619;
   3633; 3617; 32; 65; 103; 110; 111; 115; 32; 72; 101; 97; 108; 116; 104;
   10; 10; 3585; 3619; 3640; 3603; 3634; 3621; 3629; 3591; 3651; 3594; 3657;
   3588; 3635; 3606; 3634; 3617; 3629; 3639; 3656; 3609; 3627; 3619; 3639;
   3629; 3606; 3634; 3617; 3588; 3635; 3606; 3634; 3617; 3651; 3627; 3657;
   3621; 3632; 3648; 3629; 3637; 3618; 3604; 3617; 3634; 3585; 3586; 3638;
   3657; 3609].

Definition ANSWER_PREFIX : str := List.map N.of_nat
  [3592; 3634; 3585; 3586; 3657; 3629; 3617; 3641; 3621; 3651; 3609; 3615;
   3629; 3619; 3633; 3617; 32; 65; 103; 110; 111; 115; 32; 72; 101; 97; 108;
   116; 104; 58; 10; 10].

Definition ANSWER_SUFFIX : str := List.map N.of_nat
  [10; 10; 3609; 3637; 3656; 3648; 3611; 3655; 3609; 3586; 3657; 3629; 3617;
   3641; 3621; 3592; 3634; 3585; 3585; 3619; 3632; 3607; 3641; 3657; 3651;
   3609; 3615; 3629; 3619; 3633; 3617; 32; 3585; 3619; 3640; 3603; 3634;
   3611; 3619; 3638; 3585; 3625; 3634; 3649; 3614; 3607; 3618; 3660; 3626;
   3635; 3627; 3619; 3633; 3610; 3585; 3634; 3619; 3623; 3636; 3609; 3636;
   3592; 3593; 3633; 3618; 3649; 3621; 3632; 3585; 3634; 3619; 3619; 3633;
   3585; 3625; 3634; 3607; 3637; 3656; 3606; 3641; 3585; 3605; 3657; 3629;
   3591].

Definition ELLIPSIS : str := of_ascii "...".

Definition source_of (result : SearchResult) : Source :=
  {| source_title := title (result_metadata result);
     source_url := url (result_metadata result);
     source_score := score result;
     content_snippet :=
       take 300 (original_content (result_metadata result)) ++ ELLIPSIS |}.

Definition answer_question (question : str) (k : Z) : M Answer :=
  results ← search question k;
  match results with
  | [] =>
      mret {| answer := NO_INFORMATION_ANSWER; sources := []; confidence := 0 |}
  | best_result :: _ =>
      let content := content best_result in
      let content :=
        if 800 <? length content then take 800 content ++ ELLIPSIS
        else content in
      let answer := ANSWER_PREFIX ++ content ++ ANSWER_SUFFIX in
      mret {| answer := answer;
              sources := List.map source_of results;
              confidence := score best_result |}
  end.

End Index.

(** ** The rest of [rag_system.py], and [app.py] *)

(** The network: what [scrape_thread] gives for a URL, a dict, or [None]
    for the exception that [asyncio.gather] returns in its place. Of the
    dict the string fields are kept; [content_length], a number that
    nothing reads, is left out. *)
Class Web := {
  scrape_thread : str -> option (gmap string str)
}.

(** The files: the pickle files of the indexes, the JSON files of
    scraped records, and the text files, as their lines. *)
Record Disk {SK : Sklearn} := {
  pickle_files : FileSystem;
  json_files : gmap string (list (gmap string str));
  text_files : gmap string (list str)
}.

(** What the functions around the index raise: their own error, or what
    came up from the index or from [open]. *)
Inductive system_exn :=
| ValueError_no_documents_scraped
    (* raise ValueError("No documents could be scraped. ...") *)
| Propagated (e : exn).

Inductive run (A : Type) :=
| Done (a : A)
| Failed (e : system_exn).
Arguments Done {A} a.
Arguments Failed {A} e.

(** The two literals of [get_confidence_color], as the doubles they are. *)
Definition FLOAT_0_3 : Q := 5404319552844595 # 18014398509481984.
Definition FLOAT_0_1 : Q := 3602879701896397 # 36028797018963968.

Section System.
Context {U : UnicodeData} {SK : Sklearn} {W : Web}.

(** The loop of [ThreadScraper.scrape_threads] over the gathered
    results. *)
Fixpoint valid_results_of (results : list (option (gmap string str)))
  : list (gmap string str) :=
  match results with
  | [] => []
  | result :: rest =>
      match result with
      | Some d =>
          match d !! "content" with
          | Some (_ :: _) =>
              if 50 <? length (doc_get d "content")
              then d :: valid_results_of rest
              else valid_results_of rest
          | _ => valid_results_of rest
          end
      | None => valid_results_of rest
      end
  end.

(** [gather] returns the results in the order of the URLs, whatever the
    semaphore lets run together. *)
Definition scrape_threads (urls : list str) : list (gmap string str) :=
  valid_results_of (List.map scrape_thread urls).

(** [[line.strip() for line in f if line.strip()]] *)
Definition urls_of_lines (lines : list str) : list str :=
  List.map strip
    (List.filter (fun line => match strip line with [] => false | _ => true end)
       lines).

Definition scrape_thread_contents (thread_urls_file output_file : string)
    (disk : Disk) : run (list (gmap string str)) * Disk :=
  match text_files disk !! thread_urls_file with
  | None => (Failed (Propagated (FileNotFoundError thread_urls_file)), disk)
  | Some lines =>
      let urls := urls_of_lines lines in
      let results := scrape_threads urls in
      (Done results,
       {| pickle_files := pickle_files disk;
          json_files := <[output_file := results]> (json_files disk);
          text_files := text_files disk |})
  end.

(** [build_rag_system]; the system it returns is the [AgnosRAG] object
    inside it. A scraped-data file that cannot be read counts as
    missing: the bare [except] sends both to the scraper. *)
Definition build_rag_system
    (thread_urls_file scraped_data_file index_path : string) (disk : Disk)
  : run AgnosRAG * Disk :=
  let loaded :=
    match json_files disk !! scraped_data_file with
    | Some documents => (Done documents, disk)
    | None => scrape_thread_contents thread_urls_file scraped_data_file disk
    end in
  match loaded with
  | (Failed e, disk) => (Failed e, disk)
  | (Done documents, disk) =>
      match documents with
      | [] => (Failed ValueError_no_documents_scraped, disk)
      | _ =>
          match build_index documents init with
          | (Raised e, _) => (Failed (Propagated e), disk)
          | (Returned _, rag_system) =>
              (Done rag_system,
               {| pickle_files :=
                    save_index rag_system index_path (pickle_files disk);
                  json_files := json_files disk;
                  text_files := text_files disk |})
          end
      end
  end.

Definition load_rag_system (index_path : string) (disk : Disk)
  : run AgnosRAG :=
  match load_index (pickle_files disk) index_path init with
  | (Raised e, _) => Failed (Propagated e)
  | (Returned _, rag_system) => Done rag_system
  end.

(** *** [app.py] *)

Definition THREAD_URLS_FILE : string := "threads.txt".
Definition SCRAPED_DATA_FILE : string := "scraped_threads.json".
Definition INDEX_PATH : string := "agnos_health_index".

(** The two entries of [st.session_state] that [initialize_system]
    writes. *)
Record Session := {
  rag_system : option AgnosRAG;
  initialized : bool
}.

(** [os.path.exists] on the three files of an index. *)
Definition index_files_exist (index_path : string) (disk : Disk) : bool :=
  bool_decide (is_Some (vectorizer_files (pickle_files disk)
                          !! vectorizer_path index_path))
  && bool_decide (is_Some (matrix_files (pickle_files disk)
                             !! matrix_path index_path))
  && bool_decide (is_Some (metadata_files (pickle_files disk)
                             !! metadata_path index_path)).

(** [initialize_system]: its result, the session and the files it
    leaves. Every exception ends in [return False]. *)
Definition initialize_system (session : Session) (disk : Disk)
  : bool * Session * Disk :=
  if index_files_exist INDEX_PATH disk then
    match load_rag_system INDEX_PATH disk with
    | Done system =>
        (true, {| rag_system := Some system; initialized := true |}, disk)
    | Failed _ => (false, session, disk)
    end
  else if bool_decide (is_Some (text_files disk !! THREAD_URLS_FILE)) then
    match build_rag_system THREAD_URLS_FILE SCRAPED_DATA_FILE INDEX_PATH disk with
    | (Done system, disk') =>
        (true, {| rag_system := Some system; initialized := true |}, disk')
    | (Failed _, disk') => (false, session, disk')
    end
  else (false, session, disk).

Definition get_confidence_color (confidence : Q) : string :=
  if Qgt_bool confidence FLOAT_0_3 then "confidence-high"
  else if Qgt_bool confidence FLOAT_0_1 then "confidence-medium"
  else "confidence-low".

End System.

(** ** Instances to run the program on *)

(** A stable [argsort] by insertion: index [i] is put behind every index
    already placed whose value is at most [a[i]]. *)
Fixpoint insert_index (a : list Q) (i : nat) (placed : list nat) : list nat :=
  match placed with
  | [] => [i]
  | j :: rest =>
      if Qle_bool (at_index a j) (at_index a i)
      then j :: insert_index a i rest
      else i :: placed
  end.

Definition insertion_argsort (a : list Q) : list nat :=
  fold_left (fun placed i => insert_index a i placed) (seq 0 (length a)) [].

(** numpy with the stable sort. *)
Definition stable_numpy : ArgSort := {| argsort := insertion_argsort |}.

(** [i] goes before [j]: by value, and by index among equal values. *)
Definition before (a : list Q) (i j : nat) : Prop :=
  (at_index a i < at_index a j)%Q
  \/ ((at_index a i == at_index a j)%Q /\ i < j).

(** A small stand-in for scikit-learn: a row is the list of the words of
    a text, and the similarity of a query row to a document row is the
    share of the query's words that occur in the document. As in
    scikit-learn, fitting raises when [max_df] times the number of texts
    is below [min_df]. *)
Fixpoint words_from (word : str) (text : str) : list str :=
  match text with
  | [] => match word with [] => [] | _ => [word] end
  | c :: rest =>
      if isspace c
      then match word with
           | [] => words_from [] rest
           | _ => word :: words_from [] rest
           end
      else words_from (word ++ [c]) rest
  end.

Definition words (text : str) : list str := words_from [] text.

Definition word_in (w : str) (row : list str) : bool :=
  existsb (fun v => bool_decide (v = w)) row.

Definition word_overlap (query doc : list str) : Q :=
  match query with
  | [] => 0
  | _ => Z.of_nat (length (List.filter (fun w => word_in w doc) query))
         # Pos.of_nat (length query)
  end.

Definition word_sklearn : Sklearn :=
  {| Fitted := unit;
     Row := list str;
     fit := fun p texts =>
       if Qle_bool (inject_Z (Z.of_nat (min_df p)))
                   (max_df p * inject_Z (Z.of_nat (length texts)))
       then Some tt else None;
     transform_row := fun _ text => words text;
     cosine := word_overlap |}.

(** A corpus to run the program on: two threads with the same text, a
    third one, and a record too short to be indexed. *)
Definition raw_document (u t c : string) : gmap string str :=
  {[ "url" := of_ascii u; "title" := of_ascii t; "content" := of_ascii c ]}.

Definition fever_thread_0 : gmap string str :=
  raw_document "u0" "Fever"
    "rest at home and drink plenty of water for three days".
Definition fever_thread_1 : gmap string str :=
  raw_document "u1" "Fever"
    "rest at home and drink plenty of water for three days".
Definition headache_thread : gmap string str :=
  raw_document "u2" "Headache"
    "a dark quiet room and a short sleep often help a lot".
Definition short_thread : gmap string str :=
  raw_document "u3" "Hi" "too short".

Definition corpus : list (gmap string str) :=
  [fever_thread_0; short_thread; fever_thread_1; headache_thread].

(** The object after [build_index(corpus)] on a fresh [AgnosRAG()]. *)
Definition corpus_index : AgnosRAG (SK := word_sklearn) :=
  snd (build_index (U := ascii_tables) (SK := word_sklearn) corpus init).

(** A second index, of two threads, and the files on disk when saving
    [corpus_index] over it under the same path stops after the second
    file is written. *)
Definition small_index : AgnosRAG (SK := word_sklearn) :=
  snd (build_index (U := ascii_tables) (SK := word_sklearn)
         [fever_thread_0; headache_thread] init).

Definition no_files : FileSystem (SK := word_sklearn) :=
  {| vectorizer_files := ∅; matrix_files := ∅; metadata_files := ∅ |}.



(** The characters of a normalized ASCII text: small letters, digits,
    the underscore, the space and the five punctuation marks. *)
Definition is_output_char (c : N) : bool :=
  (((97 <=? c) && (c <=? 122)) || ((48 <=? c) && (c <=? 57))
   || (c =? 95) || (c =? 32)
   || (c =? 46) || (c =? 44) || (c =? 33) || (c =? 63) || (c =? 45))%N.

(** The ASCII code points. *)
Definition ascii_range : list N := List.map N.of_nat (seq 0 128).

(** The text begins with a whitespace character. *)
Definition starts_with_space (text : str) : bool :=
  match text with
  | c :: _ => isspace c
  | [] => false
  end.

(** A network to run the scraper on: three threads that answer, one
    failed fetch, and an exception for every other URL; and a network
    on which every fetch raises. *)
Definition error_record : gmap string str :=
  {[ "url" := of_ascii "bad"; "error" := of_ascii "HTTP 404"; "content" := [] ]}.

Definition canned_web : Web :=
  {| scrape_thread := fun url =>
       if bool_decide (url = of_ascii "u0") then Some fever_thread_0
       else if bool_decide (url = of_ascii "u1") then Some fever_thread_1
       else if bool_decide (url = of_ascii "u2") then Some headache_thread
       else if bool_decide (url = of_ascii "bad") then Some error_record
       else None |}.

Definition dead_web : Web := {| scrape_thread := fun _ => None |}.

(** The files before the first start: [threads.txt] alone, with a blank
    line and spaces around a URL. *)
Definition thread_lines : list str :=
  [of_ascii " u0" ++ [10%N]; [10%N]; of_ascii "bad" ++ [10%N];
   of_ascii "u1" ++ [10%N]; of_ascii "u2" ++ [10%N]; of_ascii "gone"].

Definition first_disk : Disk (SK := word_sklearn) :=
  {| pickle_files := no_files;
     json_files := ∅;
     text_files := {[ "threads.txt" := thread_lines ]} |}.

Definition fresh_session : Session (SK := word_sklearn) :=
  {| rag_system := None; initialized := false |}.

(** The session and the files after [initialize_system] on them. *)
Definition started_session : Session (SK := word_sklearn) :=
  snd (fst (initialize_system (U := ascii_tables) (W := canned_web)
              fresh_session first_disk)).

Definition started_disk : Disk (SK := word_sklearn) :=
  snd (initialize_system (U := ascii_tables) (W := canned_web)
         fresh_session first_disk).

(** The files after a [build_rag_system] on a network that gives
    nothing. *)
Definition barren_disk : Disk (SK := word_sklearn) :=
  snd (build_rag_system (U := ascii_tables) (W := dead_web)
         "threads.txt" "scraped_threads.json" "agnos_health_index"
         first_disk).

(** * Facts *)

(** ** Lists *)

Section Lists.
Context {A : Type}.

Lemma lookup_map {B : Type} (f : A -> B) (l : list A) (i : nat) :
  List.map f l !! i = f <$> (l !! i).
Proof. apply (list_lookup_fmap f l i). Qed.

Lemma StronglySorted_weaken (R R' : relation A) (l : list A) :
  (forall x y, R x y -> R' x y) -> StronglySorted R l -> StronglySorted R' l.
Proof.
  intros HRR'. induction 1 as [|x l _ IH Hx]; constructor; [exact IH|].
  eapply Forall_impl; [exact Hx|]. intros y; apply HRR'.
Qed.

Lemma StronglySorted_rev (R : relation A) (l : list A) :
  StronglySorted R l -> StronglySorted (flip R) (rev l).
Proof.
  induction 1 as [|x l _ IH Hx]; simpl; [constructor|].
  apply StronglySorted_app. split_and!.
  - intros y z Hy Hz. apply list_elem_of_singleton in Hz as ->.
    rewrite Forall_forall in Hx. apply Hx.
    apply list_elem_of_In. apply in_rev. by apply list_elem_of_In.
  - exact IH.
  - repeat constructor.
Qed.

Lemma StronglySorted_drop (R : relation A) (n : nat) (l : list A) :
  StronglySorted R l -> StronglySorted R (drop n l).
Proof.
  intros Hl. rewrite <- (take_drop n l) in Hl.
  by apply StronglySorted_app_1_r in Hl.
Qed.

Lemma StronglySorted_filter (R : relation A) (f : A -> bool) (l : list A) :
  StronglySorted R l -> StronglySorted R (List.filter f l).
Proof.
  induction 1 as [|x l _ IH Hx]; simpl; [constructor|].
  destruct (f x); [|exact IH]. constructor; [exact IH|].
  rewrite Forall_forall in Hx |- *. intros y Hy.
  apply Hx. apply list_elem_of_In in Hy. apply filter_In in Hy as [Hy _].
  by apply list_elem_of_In.
Qed.

End Lists.

(** ** The insertion [argsort] is a stable [argsort] *)

Lemma insert_index_perm (a : list Q) (i : nat) (placed : list nat) :
  insert_index a i placed ≡ₚ i :: placed.
Proof.
  induction placed as [|j rest IH]; simpl; [done|].
  destruct (Qle_bool _ _); [|done].
  rewrite IH. apply Permutation_swap.
Qed.

Lemma insert_index_sorted (a : list Q) (i : nat) (placed : list nat) :
  Forall (fun j => j < i) placed ->
  StronglySorted (before a) placed ->
  StronglySorted (before a) (insert_index a i placed).
Proof.
  intros Hlt Hs. induction Hs as [|j rest Hrest IH Hj]; simpl.
  - repeat constructor.
  - apply Forall_cons in Hlt as [Hji Hlt].
    destruct (Qle_bool (at_index a j) (at_index a i)) eqn:Hle.
    + apply Qle_bool_iff in Hle. constructor; [by apply IH|].
      rewrite (insert_index_perm a i rest). constructor; [|exact Hj].
      apply Qle_lteq in Hle as [Hle|Heq]; [by left|by right].
    + assert (at_index a i < at_index a j)%Q as Hij.
      { apply Qnot_le_lt. intros Hle'. apply Qle_bool_iff in Hle'. congruence. }
      constructor; [by constructor|].
      constructor; [by left|].
      eapply Forall_impl; [exact Hj|]. intros r [Hjr|[Hjr _]]; left.
      * by eapply Qlt_trans.
      * by rewrite <- Hjr.
Qed.

Lemma insertion_argsort_upto (a : list Q) (n : nat) :
  let placed := fold_left (fun p i => insert_index a i p) (seq 0 n) [] in
  placed ≡ₚ seq 0 n /\ StronglySorted (before a) placed.
Proof.
  cbv zeta. induction n as [|n [IHp IHs]].
  - split; constructor.
  - rewrite seq_S, fold_left_app. cbn [fold_left Nat.add]. split.
    + rewrite insert_index_perm, IHp. apply Permutation_cons_append.
    + apply insert_index_sorted; [|exact IHs].
      rewrite IHp. apply Forall_forall. intros j Hj.
      apply list_elem_of_In, in_seq in Hj. lia.
Qed.

Lemma insertion_argsort_perm (a : list Q) :
  Permutation (insertion_argsort a) (seq 0 (length a)).
Proof. apply insertion_argsort_upto. Qed.

Lemma insertion_argsort_before (a : list Q) :
  StronglySorted (before a) (insertion_argsort a).
Proof. apply insertion_argsort_upto. Qed.

Lemma insertion_argsort_ascending (a : list Q) :
  StronglySorted (fun i j => (at_index a i <= at_index a j)%Q)
    (insertion_argsort a).
Proof.
  eapply StronglySorted_weaken; [|apply insertion_argsort_before].
  intros i j [Hlt|[Heq _]]; [by apply Qlt_le_weak|].
  rewrite Heq. apply Qle_refl.
Qed.

Lemma stable_numpy_sorts : argsort_sorts stable_numpy.
Proof.
  intros a. split;
    [apply insertion_argsort_perm|apply insertion_argsort_ascending].
Qed.

Lemma stable_numpy_stable : stable_argsort stable_numpy.
Proof.
  intros a. simpl.
  eapply StronglySorted_weaken; [|apply insertion_argsort_before].
  intros i j [Hlt|[_ Hij]] Heq; [|exact Hij].
  rewrite Heq in Hlt. by apply Qlt_irrefl in Hlt.
Qed.

(** ** Running the monad *)

Ltac run_M :=
  unfold mbind, M_bind, mret, M_ret, get, raise, set_documents, set_metadata,
    set_vectorizer, set_tfidf_matrix, modify;
  cbv beta iota.

(** ** Building *)

Section Building.
Context {U : UnicodeData} {SK : Sklearn}.

Lemma index_documents_eq (docs : list (gmap string str)) (texts : list str)
    (self : AgnosRAG) :
  index_documents docs texts self =
  (Returned (texts ++ List.map cleaned_text_of (surviving docs)),
   {| vectorizer := vectorizer self;
      tfidf_matrix := tfidf_matrix self;
      documents := documents self ++ List.map cleaned_text_of (surviving docs);
      metadata := metadata self ++ List.map metadata_of (surviving docs) |}).
Proof.
  revert texts self. induction docs as [|doc rest IH]; intros texts self.
  - destruct self. simpl. by rewrite !app_nil_r.
  - unfold surviving. cbn [index_documents List.filter]. fold (surviving rest).
    cbv zeta. change (preprocess_text (combined_text doc)) with (cleaned_text_of doc).
    unfold survives. destruct (50 <? length (cleaned_text_of doc)).
    + run_M. rewrite IH. cbn [vectorizer tfidf_matrix documents metadata List.map].
      by rewrite <- !app_assoc.
    + apply IH.
Qed.

(** What [build_index] does, in one piece. *)
Lemma build_index_eq (docs : list (gmap string str)) (self : AgnosRAG) :
  build_index docs self =
  let texts := List.map cleaned_text_of (surviving docs) in
  let metas := List.map metadata_of (surviving docs) in
  match texts with
  | [] =>
      (Raised ValueError_no_valid_documents,
       {| vectorizer := vectorizer self; tfidf_matrix := tfidf_matrix self;
          documents := []; metadata := [] |})
  | _ =>
      match fit (params new_vectorizer) texts with
      | None =>
          (Raised ValueError_sklearn,
           {| vectorizer := Some new_vectorizer;
              tfidf_matrix := tfidf_matrix self;
              documents := texts; metadata := metas |})
      | Some f =>
          (Returned tt,
           {| vectorizer :=
                Some {| params := params new_vectorizer; fitted := Some f |};
              tfidf_matrix := Some (List.map (transform_row f) texts);
              documents := texts; metadata := metas |})
      end
  end.
Proof.
  unfold build_index. run_M. rewrite index_documents_eq.
  cbn [vectorizer tfidf_matrix documents metadata app].
  destruct (List.map cleaned_text_of (surviving docs)) as [|t ts] eqn:Ht.
  - apply map_eq_nil in Ht. by rewrite Ht.
  - rewrite <- Ht. unfold fit_transform.
    destruct (fit (params new_vectorizer) _); reflexivity.
Qed.

End Building.

Section Building_claims.
Context {U : UnicodeData} {SK : Sklearn}.


(** C6. Of the raw documents given to a [build_index] that returns,
    exactly those whose normalized title-plus-content is longer than 50
    are indexed: the documents, the metadata records and the rows of the
    matrix are as many as these, and position [i] of each of the three
    comes from the [i]-th of them. *)
Theorem build_index_counts_and_alignment
    (docs : list (gmap string str)) (self self' : AgnosRAG) :
  build_index docs self = (Returned tt, self') ->
  let m := length (List.filter
             (fun doc => 50 <? length (preprocess_text (combined_text doc)))
             docs) in
  length (documents self') = m /\
  length (metadata self') = m /\
  exists vec f matrix,
    vectorizer self' = Some vec /\ fitted vec = Some f /\
    tfidf_matrix self' = Some matrix /\
    length matrix = m /\
    forall i doc,
      surviving docs !! i = Some doc ->
      documents self' !! i = Some (cleaned_text_of doc) /\
      metadata self' !! i = Some (metadata_of doc) /\
      matrix !! i = Some (transform_row f (cleaned_text_of doc)).
Proof.
  intros Hbuild. change (List.filter _ docs) with (surviving docs).
  rewrite build_index_eq in Hbuild. cbv zeta in Hbuild.
  destruct (List.map cleaned_text_of (surviving docs)) as [|t ts] eqn:Ht;
    [discriminate|].
  rewrite <- Ht in Hbuild. clear t ts Ht.
  destruct (fit (params new_vectorizer) _) as [f|] eqn:Hfit; [|discriminate].
  injection Hbuild as <-. cbn [documents metadata vectorizer tfidf_matrix].
  rewrite !length_map. split_and!; try reflexivity.
  eexists _, f, _. split_and!; try reflexivity.
  - by rewrite !length_map.
  - intros i doc Hi. split_and!; repeat rewrite lookup_map; by rewrite Hi.
Qed.


(** C10. A [build_index] that returns replaces the whole state: started
    from any other state of the object, the same call returns too and
    leaves the same vectorizer, matrix, documents and metadata; the
    documents and metadata are those of the given documents and no
    others. *)
Theorem build_index_replaces_state
    (docs : list (gmap string str)) (self1 self2 self' : AgnosRAG) :
  build_index docs self1 = (Returned tt, self') ->
  build_index docs self2 = (Returned tt, self')
  /\ documents self' = List.map cleaned_text_of (surviving docs)
  /\ metadata self' = List.map metadata_of (surviving docs).
Proof.
  rewrite !build_index_eq. cbv zeta.
  destruct (List.map cleaned_text_of (surviving docs)) as [|t ts] eqn:Ht;
    [discriminate|].
  rewrite <- Ht. clear t ts Ht.
  destruct (fit (params new_vectorizer) _) as [f|]; [|discriminate].
  intros H. injection H as <-. done.
Qed.

End Building_claims.

(** ** Searching *)

Lemma slice_from_neg_length {A : Type} (k : Z) (a : list A) :
  (0 < k)%Z -> length (slice_from (- k) a) = Nat.min (Z.to_nat k) (length a).
Proof.
  intros Hk. unfold slice_from.
  destruct (Z.ltb_spec (- k) 0) as [_|?]; [|lia].
  rewrite length_drop. lia.
Qed.

Lemma slice_from_zero {A : Type} (a : list A) : slice_from (- 0) a = a.
Proof. unfold slice_from. simpl. by rewrite Z.min_l by lia. Qed.

Section Searching.
Context {U : UnicodeData} {SK : Sklearn} {AS : ArgSort}.
Hypothesis argsort_ok : argsort_sorts AS.

Lemma top_indices_descending (a : list Q) (k : Z) :
  StronglySorted (fun i j => (at_index a j <= at_index a i)%Q)
    (top_indices_of a k).
Proof.
  unfold top_indices_of, slice_from.
  apply (StronglySorted_rev (fun i j => (at_index a i <= at_index a j)%Q)).
  apply StronglySorted_drop, argsort_ok.
Qed.

Lemma top_indices_ties (a : list Q) (k : Z) :
  stable_argsort AS ->
  StronglySorted (fun i j => (at_index a i == at_index a j)%Q -> j < i)
    (top_indices_of a k).
Proof.
  intros Hstable. unfold top_indices_of, slice_from.
  eapply StronglySorted_weaken;
    [|apply StronglySorted_rev, StronglySorted_drop, (Hstable a)].
  intros i j Hji Heq. apply Hji. by symmetry.
Qed.

Lemma top_indices_in_range (a : list Q) (k : Z) :
  Forall (fun i => i < length a) (top_indices_of a k).
Proof.
  apply Forall_forall. intros i Hi. unfold top_indices_of, slice_from in Hi.
  apply list_elem_of_In, in_rev, list_elem_of_In in Hi.
  apply subseteq_drop, list_elem_of_In in Hi.
  apply (Permutation_in _ (proj1 (argsort_ok a))), in_seq in Hi. lia.
Qed.

Lemma top_indices_length (a : list Q) (k : Z) :
  (0 < k)%Z -> length (top_indices_of a k) <= Z.to_nat k.
Proof.
  intros Hk. unfold top_indices_of.
  rewrite length_rev, slice_from_neg_length by done. lia.
Qed.

Lemma similarities_of_length (f : Fitted) (matrix : Matrix) (query : str) :
  length (similarities_of f matrix query) = length matrix.
Proof.
  unfold similarities_of, flatten, cosine_similarity. simpl.
  by rewrite app_nil_r, length_map.
Qed.

(** The loop of [search] returns the results of the indices with a
    positive score, in the order of the loop, when every index it meets
    has a document and a metadata record. *)
Lemma collect_results_eq (self : AgnosRAG) (similarities : list Q)
    (top_indices : list nat) (results : list SearchResult) :
  Forall (fun idx => idx < length (documents self)
                     /\ idx < length (metadata self)) top_indices ->
  exists more,
    collect_results similarities top_indices results self
    = (Returned (results ++ more), self)
    /\ Forall2 (result_of self similarities)
         (List.filter (fun idx => Qgt_bool (at_index similarities idx) 0)
            top_indices) more.
Proof.
  intros Hrange. revert results.
  induction Hrange as [|idx rest [Hdoc Hmeta] _ IH]; intros results.
  - exists []. split; [|constructor]. simpl. by rewrite app_nil_r.
  - cbn [collect_results List.filter].
    destruct (Qgt_bool (at_index similarities idx) 0).
    + apply lookup_lt_is_Some_2 in Hdoc as [doc Hdoc].
      apply lookup_lt_is_Some_2 in Hmeta as [meta Hmeta].
      run_M. rewrite Hdoc, Hmeta.
      destruct (IH (results ++
        [{| score := at_index similarities idx; content := doc;
            result_metadata := meta |}])) as (more & Heq & Hmore).
      eexists (_ :: more). rewrite Heq, <- app_assoc. split; [done|].
      constructor; [|exact Hmore]. done.
    + apply IH.
Qed.

Lemma search_ready (self : AgnosRAG) (f : Fitted) (matrix : Matrix)
    (query : str) (k : Z) :
  ready self f matrix ->
  exists results,
    search query k self = (Returned results, self)
    /\ Forall2 (result_of self (similarities_of f matrix query))
         (hits_of (similarities_of f matrix query) k) results.
Proof.
  intros ((vec & Hvec & Hf) & Hm & Hdocs & Hmetas).
  unfold search. run_M. rewrite Hvec, Hm. unfold transform. rewrite Hf.
  cbn [List.map]. fold (similarities_of f matrix query).
  destruct (collect_results_eq self (similarities_of f matrix query)
    (top_indices_of (similarities_of f matrix query) k) []) as (rs & Heq & Hrs).
  - eapply Forall_impl; [apply top_indices_in_range|]. cbv beta.
    intros idx. rewrite similarities_of_length. lia.
  - exists rs. split; [exact Heq|exact Hrs].
Qed.

Lemma build_index_ready (docs : list (gmap string str)) (self self' : AgnosRAG) :
  build_index docs self = (Returned tt, self') ->
  exists f matrix, ready self' f matrix.
Proof.
  rewrite build_index_eq. cbv zeta.
  destruct (List.map cleaned_text_of (surviving docs)) as [|t ts] eqn:Ht;
    [discriminate|].
  rewrite <- Ht. clear t ts Ht.
  destruct (fit (params new_vectorizer) _) as [f|]; [|discriminate].
  intros H. injection H as <-. eexists f, _. unfold ready.
  cbn [vectorizer tfidf_matrix documents metadata].
  split_and!; [eexists; split; reflexivity|reflexivity|..];
    by rewrite !length_map.
Qed.

End Searching.

Lemma Forall2_StronglySorted {A B : Type} (P : A -> B -> Prop)
    (R : relation A) (R' : relation B) (l : list A) (l' : list B) :
  (forall x y x' y', P x x' -> P y y' -> R x y -> R' x' y') ->
  Forall2 P l l' -> StronglySorted R l -> StronglySorted R' l'.
Proof.
  intros HR. induction 1 as [|x x' l l' Hx Hl IH]; intros Hs; [constructor|].
  apply StronglySorted_cons in Hs as [Hfirst Hs].
  constructor; [by apply IH|].
  clear IH Hs. induction Hl as [|y y' l l' Hy _ IH]; [constructor|].
  apply Forall_cons in Hfirst as [Hxy Hfirst].
  constructor; [by eapply HR|by apply IH].
Qed.

Section Search_claims.
Context {U : UnicodeData} {SK : Sklearn} {AS : ArgSort}.

Lemma hits_descending (a : list Q) (k : Z) :
  argsort_sorts AS ->
  StronglySorted (fun i j => (at_index a j <= at_index a i)%Q) (hits_of a k).
Proof. intros Hsorts. by apply StronglySorted_filter, top_indices_descending. Qed.

Lemma hits_positive (a : list Q) (k : Z) :
  Forall (fun i => (0 < at_index a i)%Q) (hits_of a k).
Proof.
  apply Forall_forall. intros i Hi.
  apply list_elem_of_In, filter_In in Hi as [_ Hi].
  unfold Qgt_bool in Hi. apply negb_true_iff in Hi.
  apply Qnot_le_lt. intros Hle. apply Qle_bool_iff in Hle. congruence.
Qed.

Lemma hits_length (a : list Q) (k : Z) :
  (0 < k)%Z -> length (hits_of a k) <= Z.to_nat k.
Proof.
  intros Hk. unfold hits_of.
  etrans; [apply List.filter_length_le|]. by apply top_indices_length.
Qed.

(** For a positive [k], [search] on a built index returns at most [k]
    results, those of the indices [hits_of] keeps. *)
Lemma search_at_most_k (docs : list (gmap string str))
    (self0 self : AgnosRAG) (query : str) (k : Z) :
  argsort_sorts AS ->
  build_index docs self0 = (Returned tt, self) ->
  (0 < k)%Z ->
  exists results,
    search query k self = (Returned results, self)
    /\ length results <= Z.to_nat k.
Proof.
  intros Hsorts Hbuild Hk.
  destruct (build_index_ready _ _ _ Hbuild) as (f & matrix & Hready).
  destruct (search_ready Hsorts self f matrix query k Hready)
    as (rs & Heq & Hrs).
  exists rs. split; [exact Heq|].
  rewrite <- (Forall2_length _ _ _ Hrs). by apply hits_length.
Qed.

(** C2 (amended). With an [argsort] that sorts, [search] on a built
    index returns the results of document indices [hits], in that order:
    the scores descend, every score is above 0, and results of equal
    score are left as the reversed [argsort] has them, which for a stable
    [argsort] is the higher document index first. *)
Theorem search_sorted_positive (docs : list (gmap string str))
    (self0 self : AgnosRAG) (query : str) (k : Z) :
  argsort_sorts AS ->
  build_index docs self0 = (Returned tt, self) ->
  exists results hits similarities,
    search query k self = (Returned results, self)
    /\ Forall2 (result_of self similarities) hits results
    /\ StronglySorted (fun r r' => (score r' <= score r)%Q) results
    /\ Forall (fun r => (0 < score r)%Q) results
    /\ (stable_argsort AS ->
        StronglySorted
          (fun i j =>
             (at_index similarities i == at_index similarities j)%Q -> j < i)
          hits).
Proof.
  intros Hsorts Hbuild.
  destruct (build_index_ready _ _ _ Hbuild) as (f & matrix & Hready).
  destruct (search_ready Hsorts self f matrix query k Hready)
    as (rs & Heq & Hrs).
  set (a := similarities_of f matrix query) in *.
  exists rs, (hits_of a k), a. split_and!; [exact Heq|exact Hrs|..].
  - eapply Forall2_StronglySorted; [|exact Hrs|by apply hits_descending].
    intros i j r r' (-> & _) (-> & _) Hle. exact Hle.
  - pose proof (hits_positive a k) as Hpos.
    clear Heq. induction Hrs as [|i r l l' (Hscore & _) _ IH]; [constructor|].
    apply Forall_cons in Hpos as [Hi Hpos].
    constructor; [by rewrite Hscore|by apply IH].
  - intros Hstable. by apply StronglySorted_filter, top_indices_ties.
Qed.

(** C8. With no vectorizer or no matrix, [search] raises the
    index-not-built error, whatever the query and [k], and returns
    nothing. *)
Theorem search_index_not_built (self : AgnosRAG) (query : str) (k : Z) :
  vectorizer self = None \/ tfidf_matrix self = None ->
  search query k self = (Raised ValueError_index_not_built, self).
Proof.
  intros [Hnone|Hnone]; unfold search; run_M; rewrite Hnone;
    [|destruct (vectorizer self)]; reflexivity.
Qed.

End Search_claims.

(** ** Answering *)

Section Answer_claims.
Context {U : UnicodeData} {SK : Sklearn} {AS : ArgSort}.

(** C9. When [search] returns no result, [answer_question] returns the
    fixed no-information answer, with no source and confidence 0; when
    it returns results, the confidence is the score of the first and the
    sources are those of the results, one for each, in the same order. *)
Theorem answer_question_cases (question : str) (k : Z)
    (self self' : AgnosRAG) (results : list SearchResult) :
  search question k self = (Returned results, self') ->
  exists a,
    answer_question question k self = (Returned a, self')
    /\ match results with
       | [] =>
           a = {| answer := NO_INFORMATION_ANSWER; sources := [];
                  confidence := 0 |}
       | best_result :: _ =>
           confidence a = score best_result
           /\ Forall2
                (fun source result =>
                   source_title source = title (result_metadata result)
                   /\ source_url source = url (result_metadata result)
                   /\ source_score source = score result)
                (sources a) results
       end.
Proof.
  intros Hsearch. unfold answer_question. run_M. rewrite Hsearch.
  destruct results as [|best_result rest]; eexists; (split; [reflexivity|]).
  - reflexivity.
  - cbn [confidence sources]. split; [reflexivity|].
    generalize (best_result :: rest). intros l.
    induction l as [|r l IH]; constructor; [done|exact IH].
Qed.

End Answer_claims.

(** ** Loading *)

Section Load_claims.
Context {SK : Sklearn}.


(** Loading what [save_index] wrote gives the saved state back. *)
Lemma load_save_index (saved self : AgnosRAG) (index_path : string)
    (fs : FileSystem) :
  load_index (save_index saved index_path fs) index_path self
  = (Returned tt, saved).
Proof.
  unfold load_index, load_pickle, save_index. run_M.
  cbn [vectorizer_files matrix_files metadata_files].
  rewrite !lookup_insert_eq.
  cbn [vectorizer tfidf_matrix documents metadata data_documents data_metadata].
  by destruct saved.
Qed.

End Load_claims.

(** ** The normalizer on ["a@@b"] *)

Section Normalizer_claims.
Context {U : UnicodeData}.

(** C4. On ["a@@b"] the normalizer returns ["a  b"]: each of the two
    [@] becomes a space after the whitespace runs were collapsed, and the
    two spaces stay. *)
Theorem preprocess_text_leaves_whitespace_run :
  preprocess_text (of_ascii "a@@b") = of_ascii "a  b"
  /\ has_whitespace_run (preprocess_text (of_ascii "a@@b")) = true.
Proof. split; reflexivity. Qed.

(** C3. Normalizing ["a@@b"] twice does not give what normalizing it
    once gives: the second pass collapses the two spaces the first one
    left. *)
Theorem preprocess_text_not_idempotent :
  preprocess_text (preprocess_text (of_ascii "a@@b")) = of_ascii "a b"
  /\ preprocess_text (preprocess_text (of_ascii "a@@b"))
     <> preprocess_text (of_ascii "a@@b").
Proof. split; [reflexivity|discriminate]. Qed.

End Normalizer_claims.

(** ** The program on the corpus *)

Lemma corpus_index_built :
  build_index (U := ascii_tables) corpus init = (Returned tt, corpus_index).
Proof. vm_compute. reflexivity. Qed.

(** C1. [build_index] on the corpus returns, and on the index it leaves
    [search("fever", 0)] returns two results, the two threads on fever,
    not none: [a[-0:]] is the whole of [a]. *)
Theorem search_k_zero_returns_results :
  build_index (U := ascii_tables) corpus init = (Returned tt, corpus_index)
  /\ exists results,
       search (U := ascii_tables) (AS := stable_numpy) (of_ascii "fever") 0
         corpus_index = (Returned results, corpus_index)
       /\ List.map (fun r => url (result_metadata r)) results
          = [of_ascii "u1"; of_ascii "u0"].
Proof.
  split; [exact corpus_index_built|].
  exists (returned_or [] (fst (search (U := ascii_tables) (AS := stable_numpy)
                                (of_ascii "fever") 0 corpus_index))).
  split; vm_compute; reflexivity.
Qed.

(** C2, as stated, fails: on the index built from the corpus, with the
    stable [argsort], the two results of [search("fever", 2)] have the
    same score and the thread at index 1 comes before the thread at
    index 0. *)
Lemma search_ties_in_reverse_document_order :
  build_index (U := ascii_tables) corpus init = (Returned tt, corpus_index)
  /\ List.map url (metadata corpus_index)
     = [of_ascii "u0"; of_ascii "u1"; of_ascii "u2"]
  /\ exists r r',
       search (U := ascii_tables) (AS := stable_numpy) (of_ascii "fever") 2
         corpus_index = (Returned [r; r'], corpus_index)
       /\ score r = score r'
       /\ url (result_metadata r) = of_ascii "u1"
       /\ url (result_metadata r') = of_ascii "u0".
Proof.
  split; [vm_compute; reflexivity|].
  split; [vm_compute; reflexivity|].
  pose (rs := returned_or [] (fst (search (U := ascii_tables)
         (AS := stable_numpy) (of_ascii "fever") 2 corpus_index))).
  exists (nth 0 rs {| score := 0; content := [];
                      result_metadata := metadata_of ∅ |}),
         (nth 1 rs {| score := 0; content := [];
                      result_metadata := metadata_of ∅ |}).
  split_and!; vm_compute; reflexivity.
Qed.


(** ** The theorems at work on the corpus *)

Lemma build_index_counts_and_alignment_witness :
  length (documents corpus_index) = 3
  /\ length (metadata corpus_index) = 3
  /\ length <$> tfidf_matrix corpus_index = Some 3.
Proof.
  assert (build_index (U := ascii_tables) corpus init
          = (Returned tt, corpus_index)) as Hbuild
    by (vm_compute; reflexivity).
  destruct (build_index_counts_and_alignment corpus init corpus_index Hbuild)
    as (Hdocs & Hmetas & vec & f & matrix & _ & _ & Hmatrix & Hrows & _).
  split_and!; [exact Hdocs|exact Hmetas|].
  rewrite Hmatrix. cbn [fmap option_fmap option_map]. f_equal. exact Hrows.
Defined.


Lemma build_index_replaces_state_witness :
  build_index (U := ascii_tables) corpus small_index
  = (Returned tt, corpus_index)
  /\ documents corpus_index
     = List.map (cleaned_text_of (U := ascii_tables))
         (surviving (U := ascii_tables) corpus)
  /\ metadata corpus_index
     = List.map metadata_of (surviving (U := ascii_tables) corpus).
Proof.
  apply (build_index_replaces_state corpus init small_index corpus_index).
  vm_compute. reflexivity.
Defined.

Lemma search_sorted_positive_witness :
  exists results hits similarities,
    search (U := ascii_tables) (AS := stable_numpy) (of_ascii "fever") 2
      corpus_index = (Returned results, corpus_index)
    /\ Forall2 (result_of corpus_index similarities) hits results
    /\ StronglySorted (fun r r' => (score r' <= score r)%Q) results
    /\ Forall (fun r => (0 < score r)%Q) results
    /\ StronglySorted
         (fun i j =>
            (at_index similarities i == at_index similarities j)%Q -> j < i)
         hits.
Proof.
  assert (build_index (U := ascii_tables) corpus init
          = (Returned tt, corpus_index)) as Hbuild
    by (vm_compute; reflexivity).
  destruct (search_sorted_positive (AS := stable_numpy) corpus init
              corpus_index (of_ascii "fever") 2 stable_numpy_sorts Hbuild)
    as (results & hits & a & Hsearch & Hresults & Hsorted & Hpos & Hties).
  exists results, hits, a.
  split_and!; [exact Hsearch|exact Hresults|exact Hsorted|exact Hpos|].
  apply Hties, stable_numpy_stable.
Defined.

Lemma search_index_not_built_witness :
  search (U := ascii_tables) (SK := word_sklearn) (AS := stable_numpy)
    (of_ascii "fever") 5 init
  = (Raised ValueError_index_not_built, init).
Proof. apply search_index_not_built. left. reflexivity. Defined.

Lemma answer_question_cases_witness :
  (exists a,
     answer_question (U := ascii_tables) (AS := stable_numpy)
       (of_ascii "zzz") 3 corpus_index = (Returned a, corpus_index)
     /\ a = {| answer := NO_INFORMATION_ANSWER; sources := [];
               confidence := 0 |})
  /\ (exists a,
        answer_question (U := ascii_tables) (AS := stable_numpy)
          (of_ascii "fever") 1 corpus_index = (Returned a, corpus_index)
        /\ confidence a = 1%Q
        /\ List.map source_url (sources a) = [of_ascii "u1"]).
Proof.
  split.
  - apply (answer_question_cases (AS := stable_numpy) (of_ascii "zzz") 3
             corpus_index corpus_index []).
    vm_compute. reflexivity.
  - pose (best := {| score := 1;
                     content := cleaned_text_of (U := ascii_tables) fever_thread_1;
                     result_metadata := metadata_of fever_thread_1 |}).
    destruct (answer_question_cases (U := ascii_tables) (AS := stable_numpy)
                (of_ascii "fever") 1
                corpus_index corpus_index [best])
      as (a & Ha & Hconf & Hsources); [vm_compute; reflexivity|].
    exists a. split_and!; [exact Ha|exact Hconf|].
    apply Forall2_cons_inv_r in Hsources
      as (source & rest & (_ & Hurl & _) & Hrest & ->).
    apply Forall2_nil_inv_r in Hrest as ->. cbn [List.map]. by rewrite Hurl.
Defined.

(** * More of the program *)

(** ** What [search] does on any object *)

Section Search_any.
Context {U : UnicodeData} {SK : Sklearn} {AS : ArgSort}.

Lemma collect_results_frame (similarities : list Q) (top_indices : list nat)
    (results : list SearchResult) (self : AgnosRAG) :
  snd (collect_results similarities top_indices results self) = self.
Proof.
  revert results. induction top_indices as [|idx rest IH]; intros results.
  - reflexivity.
  - cbn [collect_results].
    destruct (Qgt_bool (at_index similarities idx) 0); [|apply IH].
    run_M. destruct (documents self !! idx); [|reflexivity].
    destruct (metadata self !! idx); [apply IH|reflexivity].
Qed.

Lemma collect_results_returned (similarities : list Q)
    (top_indices : list nat) (results rs : list SearchResult)
    (self : AgnosRAG) :
  fst (collect_results similarities top_indices results self) = Returned rs ->
  exists more,
    rs = results ++ more
    /\ length more <= length top_indices
    /\ Forall (fun r => (0 < score r)%Q) more.
Proof.
  revert results. induction top_indices as [|idx rest IH]; intros results.
  - cbn. intros [= <-]. exists []. by rewrite app_nil_r.
  - cbn [collect_results].
    destruct (Qgt_bool (at_index similarities idx) 0) eqn:Hpos.
    + run_M. destruct (documents self !! idx) as [doc|]; [|discriminate].
      destruct (metadata self !! idx) as [meta|]; [|discriminate].
      intros Hrs. apply IH in Hrs as (more & -> & Hlen & Hall).
      eexists (_ :: more). rewrite <- app_assoc. split_and!; [done|simpl; lia|].
      constructor; [|exact Hall]. cbn [score].
      unfold Qgt_bool in Hpos. apply negb_true_iff in Hpos.
      apply Qnot_le_lt. intros Hle. apply Qle_bool_iff in Hle. congruence.
    + intros Hrs. apply IH in Hrs as (more & -> & Hlen & Hall).
      exists more. split_and!; [done|simpl; lia|done].
Qed.

(** What [search] returned came out of its loop over the top indices. *)
Lemma search_returned (query : str) (k : Z) (self : AgnosRAG)
    (rs : list SearchResult) :
  fst (search query k self) = Returned rs ->
  exists similarities,
    fst (collect_results similarities (top_indices_of similarities k) [] self)
    = Returned rs.
Proof.
  unfold search. run_M.
  destruct (vectorizer self) as [vec|]; [|discriminate].
  destruct (tfidf_matrix self) as [matrix|]; [|discriminate].
  destruct (transform vec _) as [query_vector|]; [|discriminate].
  cbv zeta. eauto.
Qed.

Lemma search_frame (query : str) (k : Z) (self : AgnosRAG) :
  snd (search query k self) = self.
Proof.
  unfold search. run_M.
  destruct (vectorizer self) as [vec|]; [|reflexivity].
  destruct (tfidf_matrix self) as [matrix|]; [|reflexivity].
  destruct (transform vec _) as [query_vector|]; [|reflexivity].
  apply collect_results_frame.
Qed.

Lemma search_positive (query : str) (k : Z) (self : AgnosRAG)
    (rs : list SearchResult) :
  fst (search query k self) = Returned rs ->
  Forall (fun r => (0 < score r)%Q) rs.
Proof.
  intros Hrs. apply search_returned in Hrs as (a & Hrs).
  by apply collect_results_returned in Hrs as (more & -> & _ & Hall).
Qed.

End Search_any.




Section Search_ranking.
Context {U : UnicodeData} {SK : Sklearn} {AS : ArgSort}.
Hypothesis argsort_ok : argsort_sorts AS.



End Search_ranking.

Section Search_extras.
Context {U : UnicodeData} {SK : Sklearn} {AS : ArgSort}.

Lemma answer_question_frame (question : str) (k : Z) (self : AgnosRAG) :
  snd (answer_question question k self) = self.
Proof.
  unfold answer_question. run_M.
  pose proof (search_frame question k self) as Hframe.
  destruct (search question k self) as [[results|e] self']; simpl in Hframe;
    subst self'; [|reflexivity].
  by destruct results.
Qed.

(** X1. [search] and [answer_question] only read the object: whatever
    they return or raise, its vectorizer, matrix, documents and metadata
    are afterwards what they were. *)
Theorem search_and_answer_leave_object (text : str) (k : Z)
    (self : AgnosRAG) :
  snd (search text k self) = self
  /\ snd (answer_question text k self) = self.
Proof. split; [apply search_frame|apply answer_question_frame]. Qed.

(** X2. For [k] at least 1, whatever the state of the object, a
    [search] that returns gives at most [k] results, each with a score
    above 0. *)
Theorem search_at_most_k_any_object (query : str) (k : Z) (self : AgnosRAG)
    (results : list SearchResult) :
  (1 <= k)%Z ->
  fst (search query k self) = Returned results ->
  (Z.of_nat (length results) <= k)%Z
  /\ Forall (fun r => (0 < score r)%Q) results.
Proof.
  intros Hk Hrs. split; [|by eapply search_positive].
  apply search_returned in Hrs as (a & Hrs).
  apply collect_results_returned in Hrs as (more & -> & Hlen & _).
  pose proof (top_indices_length a k ltac:(lia)). simpl. lia.
Qed.



End Search_extras.

(** ** What [answer_question] returns *)

Section Answer_extras.
Context {U : UnicodeData} {SK : Sklearn} {AS : ArgSort}.

(** The text [answer_question] puts between prefix and suffix. *)
Lemma answer_question_returned (question : str) (k : Z) (self : AgnosRAG)
    (a : Answer) :
  fst (answer_question question k self) = Returned a ->
  exists results,
    fst (search question k self) = Returned results
    /\ sources a = List.map source_of results
    /\ match results with
       | [] => a = {| answer := NO_INFORMATION_ANSWER; sources := [];
                      confidence := 0 |}
       | best :: _ =>
           confidence a = score best
           /\ exists shown,
                answer a = ANSWER_PREFIX ++ shown ++ ANSWER_SUFFIX
                /\ length shown <= 803
       end.
Proof.
  unfold answer_question. run_M.
  destruct (search question k self) as [[results|e] self']; [|discriminate].
  exists results. split; [reflexivity|].
  destruct results as [|best rest]; cbn [fst] in H; injection H as <-.
  - done.
  - cbn [sources confidence answer]. split_and!; [done..|].
    eexists. split; [reflexivity|].
    destruct (Nat.ltb_spec 800 (length (content best))) as [Hlong|Hshort].
    + rewrite length_app, length_take.
      change (length ELLIPSIS) with 3. lia.
    + lia.
Qed.

(** X5. [answer_question] raises exactly when [search] does, and the
    same exception; so on an object without a vectorizer or without a
    matrix it raises the index-not-built error. *)
Theorem answer_question_raises_as_search (question : str) (k : Z)
    (self : AgnosRAG) :
  (forall e, fst (answer_question question k self) = Raised e
             <-> fst (search question k self) = Raised e)
  /\ (vectorizer self = None \/ tfidf_matrix self = None ->
      answer_question question k self
      = (Raised ValueError_index_not_built, self)).
Proof.
  split.
  - intros e. unfold answer_question. run_M.
    destruct (search question k self) as [[results|e'] self']; cbn [fst].
    + destruct results; cbn [fst]; split; discriminate.
    + split; intros [= ->]; reflexivity.
  - intros Hnone. unfold answer_question, search. run_M.
    destruct Hnone as [->| ->]; [done|].
    by destruct (vectorizer self).
Qed.

(** X6. An answer that [answer_question] returns has a text of at most
    921 characters, and each of its sources has a snippet of at most 303
    characters that ends in three dots. *)
Theorem answer_question_lengths (question : str) (k : Z) (self : AgnosRAG)
    (a : Answer) :
  fst (answer_question question k self) = Returned a ->
  length (answer a) <= 921
  /\ Forall (fun source =>
       exists shown,
         content_snippet source = shown ++ of_ascii "..."
         /\ length shown <= 300)
       (sources a).
Proof.
  intros Ha. apply answer_question_returned in Ha
    as (results & _ & Hsources & Hcase).
  split.
  - destruct results as [|best rest].
    + subst a. vm_compute. lia.
    + destruct Hcase as (_ & shown & -> & Hshown).
      rewrite !length_app.
      change (length ANSWER_PREFIX) with 32.
      change (length ANSWER_SUFFIX) with 86. lia.
  - rewrite Hsources. clear. induction results as [|r rs IH]; constructor.
    + eexists. split; [reflexivity|]. rewrite length_take. lia.
    + exact IH.
Qed.

(** X7. In an answer that [answer_question] returns, the confidence is
    0 when there is no source and above 0 when there is one. *)
Theorem answer_question_confidence_sign (question : str) (k : Z)
    (self : AgnosRAG) (a : Answer) :
  fst (answer_question question k self) = Returned a ->
  (sources a = [] -> confidence a = 0%Q)
  /\ (sources a <> [] -> (0 < confidence a)%Q).
Proof.
  intros Ha. apply answer_question_returned in Ha
    as (results & Hsearch & Hsources & Hcase).
  apply search_positive in Hsearch.
  destruct results as [|best rest].
  - subst a. split; [done|]. by intros [].
  - destruct Hcase as (-> & _). rewrite Hsources. split; [discriminate|].
    intros _. by apply Forall_cons in Hsearch as [? _].
Qed.


End Answer_extras.

(** ** What [build_index] keeps, drops and leaves behind *)

Section Build_extras.
Context {U : UnicodeData} {SK : Sklearn} {AS : ArgSort}.

Lemma surviving_app (docs docs' : list (gmap string str)) :
  surviving (docs ++ docs') = surviving docs ++ surviving docs'.
Proof. apply List.filter_app. Qed.

Lemma surviving_drop (front back : list (gmap string str))
    (doc : gmap string str) :
  survives doc = false ->
  surviving (front ++ doc :: back) = surviving (front ++ back).
Proof.
  intros Hdoc. rewrite !surviving_app. f_equal.
  unfold surviving. simpl. by rewrite Hdoc.
Qed.

(** A record without title and content normalizes to the empty text. *)
Lemma empty_record_text (doc : gmap string str) :
  doc_get doc "title" = [] -> doc_get doc "content" = [] ->
  cleaned_text_of doc = [].
Proof.
  intros Htitle Hcontent. unfold cleaned_text_of, combined_text.
  rewrite Htitle, Hcontent. reflexivity.
Qed.

Lemma collect_results_no_documents (similarities : list Q)
    (top_indices : list nat) (results rs : list SearchResult)
    (self : AgnosRAG) :
  documents self = [] ->
  fst (collect_results similarities top_indices results self) = Returned rs ->
  rs = results.
Proof.
  intros Hdocs. revert results.
  induction top_indices as [|idx rest IH]; intros results.
  - cbn. by intros [= <-].
  - cbn [collect_results].
    destruct (Qgt_bool (at_index similarities idx) 0); [|apply IH].
    run_M. rewrite Hdocs. discriminate.
Qed.

(** X9. After a [build_index] that returns, every indexed text is
    longer than 50 characters and every metadata record keeps at most
    1000 characters of content. *)
Theorem build_index_text_and_snippet_lengths
    (docs : list (gmap string str)) (self self' : AgnosRAG) :
  build_index docs self = (Returned tt, self') ->
  Forall (fun text => 50 < length text) (documents self')
  /\ Forall (fun meta => length (original_content meta) <= 1000)
       (metadata self').
Proof.
  rewrite build_index_eq. cbv zeta.
  destruct (List.map cleaned_text_of (surviving docs)) as [|t ts] eqn:Ht;
    [discriminate|].
  rewrite <- Ht. clear t ts Ht.
  destruct (fit (params new_vectorizer) _) as [f|]; [|discriminate].
  intros H. injection H as <-. cbn [documents metadata]. split.
  - apply Forall_forall. intros text Htext.
    apply list_elem_of_In, in_map_iff in Htext as (doc & <- & Hdoc).
    apply filter_In in Hdoc as [_ Hdoc]. unfold survives in Hdoc.
    by apply Nat.ltb_lt in Hdoc.
  - apply Forall_forall. intros meta Hmeta.
    apply list_elem_of_In, in_map_iff in Hmeta as (doc & <- & _).
    cbn [original_content metadata_of]. rewrite length_take. lia.
Qed.

(** X10. A record that does not pass the length filter has no part in
    the build: with it or without it in the list, [build_index] ends
    with the same outcome and the same state. *)
Theorem build_index_ignores_short_records
    (front back : list (gmap string str)) (doc : gmap string str)
    (self : AgnosRAG) :
  length (preprocess_text (combined_text doc)) <= 50 ->
  build_index (front ++ doc :: back) self = build_index (front ++ back) self.
Proof.
  intros Hshort. rewrite !build_index_eq, surviving_drop; [reflexivity|].
  unfold survives, cleaned_text_of. apply Nat.ltb_ge. exact Hshort.
Qed.

(** X11. A record whose title and content are both missing or empty
    ([doc.get(key, '')] is empty for both), as the scraper makes for a
    failed fetch, is never indexed: [build_index] goes as if the record
    were not in the list. *)
Theorem build_index_drops_empty_records
    (front back : list (gmap string str)) (doc : gmap string str)
    (self : AgnosRAG) :
  doc_get doc "title" = [] ->
  doc_get doc "content" = [] ->
  build_index (front ++ doc :: back) self = build_index (front ++ back) self.
Proof.
  intros Htitle Hcontent.
  rewrite !build_index_eq, surviving_drop; [reflexivity|].
  unfold survives. by rewrite empty_record_text.
Qed.

(** X12. When [build_index] raises the no-valid-documents error, the
    documents and the metadata of the object are gone while its
    vectorizer and matrix are those it had; on what is left no [search]
    returns a result. *)
Theorem build_index_failure_empties_index
    (docs : list (gmap string str)) (self : AgnosRAG) :
  fst (build_index docs self) = Raised ValueError_no_valid_documents ->
  documents (snd (build_index docs self)) = []
  /\ metadata (snd (build_index docs self)) = []
  /\ vectorizer (snd (build_index docs self)) = vectorizer self
  /\ tfidf_matrix (snd (build_index docs self)) = tfidf_matrix self
  /\ forall query k results,
       fst (search query k (snd (build_index docs self))) = Returned results ->
       results = [].
Proof.
  rewrite build_index_eq. cbv zeta.
  destruct (List.map cleaned_text_of (surviving docs)) as [|t ts];
    [|destruct (fit _ _); discriminate].
  intros _. cbn [snd documents metadata vectorizer tfidf_matrix].
  split_and!; try reflexivity.
  intros query k results Hrs. apply search_returned in Hrs as (a & Hrs).
  by apply collect_results_no_documents in Hrs.
Qed.

(** X13. When the fit of the vectorizer raises in [build_index], the
    object is left with the new texts, an unfitted vectorizer and the
    matrix it had, and every [search] on it raises: the index-not-built
    error if there was no matrix, the not-fitted error otherwise. *)
Theorem build_index_fit_failure_blocks_search
    (docs : list (gmap string str)) (self : AgnosRAG) :
  fst (build_index docs self) = Raised ValueError_sklearn ->
  vectorizer (snd (build_index docs self)) = Some new_vectorizer
  /\ tfidf_matrix (snd (build_index docs self)) = tfidf_matrix self
  /\ documents (snd (build_index docs self))
     = List.map cleaned_text_of (surviving docs)
  /\ forall query k,
       fst (search query k (snd (build_index docs self)))
       = Raised (match tfidf_matrix self with
                 | None => ValueError_index_not_built
                 | Some _ => NotFittedError
                 end).
Proof.
  rewrite build_index_eq. cbv zeta.
  destruct (List.map cleaned_text_of (surviving docs)) as [|t ts] eqn:Ht;
    [discriminate|].
  rewrite <- Ht. clear t ts Ht.
  destruct (fit (params new_vectorizer) _) as [f|]; [discriminate|].
  intros _. cbn [snd documents metadata vectorizer tfidf_matrix].
  split_and!; try reflexivity.
  intros query k. unfold search. run_M.
  cbn [vectorizer tfidf_matrix]. by destruct (tfidf_matrix self).
Qed.

End Build_extras.

(** ** Saving and loading *)



Section Persistence_extras.
Context {U : UnicodeData} {SK : Sklearn} {AS : ArgSort}.

(** X14. What [save_index] writes, [load_index] reads back: loading
    under the path of a save returns, in whatever object and whatever
    else is on disk, and leaves the object in the saved state, so that
    [search] and [answer_question] give on it what they give on the
    saved object. *)
Theorem save_then_load_restores (saved self : AgnosRAG)
    (index_path : string) (fs : FileSystem) :
  load_index (save_index saved index_path fs) index_path self
  = (Returned tt, saved)
  /\ forall text k,
       let loaded :=
         snd (load_index (save_index saved index_path fs) index_path self) in
       fst (search text k loaded) = fst (search text k saved)
       /\ fst (answer_question text k loaded)
          = fst (answer_question text k saved).
Proof.
  pose proof (load_save_index saved self index_path fs) as Hload.
  split; [exact Hload|]. intros text k. cbv zeta. by rewrite Hload.
Qed.


End Persistence_extras.

(** ** Scraping, building and starting the system *)

Section System_extras.
Context {U : UnicodeData} {SK : Sklearn}.

Lemma valid_results_of_spec (results : list (option (gmap string str))) :
  length (valid_results_of results) <= length results
  /\ Forall (fun d => 50 < length (doc_get d "content") /\ Some d ∈ results)
       (valid_results_of results).
Proof.
  induction results as [|result rest [IHlen IHall]]; [split; [done|constructor]|].
  assert (Forall (fun d => 50 < length (doc_get d "content")
                           /\ Some d ∈ result :: rest)
            (valid_results_of rest)) as Hrest.
  { eapply Forall_impl; [exact IHall|]. intros d [? ?]. split; [done|].
    by right. }
  cbn [valid_results_of length].
  destruct result as [d|]; [|split; [lia|done]].
  destruct (d !! "content") as [[|c content]|]; try (split; [lia|done]).
  destruct (Nat.ltb_spec 50 (length (doc_get d "content"))) as [Hlong|_];
    [|split; [lia|done]].
  split; [simpl; lia|]. constructor; [|done]. split; [done|by left].
Qed.

(** X16. [scrape_threads] returns at most one record per URL, each one
    the record fetched for one of the URLs and with a content longer
    than 50 characters: what raised, and the records of failed fetches
    with their empty content, are left out. *)
Theorem scrape_threads_keeps_long_content {W : Web} (urls : list str) :
  length (scrape_threads urls) <= length urls
  /\ Forall (fun d =>
       50 < length (doc_get d "content")
       /\ exists url, url ∈ urls /\ scrape_thread url = Some d)
       (scrape_threads urls).
Proof.
  unfold scrape_threads.
  destruct (valid_results_of_spec (List.map scrape_thread urls))
    as [Hlen Hall].
  rewrite length_map in Hlen. split; [exact Hlen|].
  eapply Forall_impl; [exact Hall|]. intros d [Hlong Hin].
  split; [exact Hlong|].
  apply list_elem_of_In, in_map_iff in Hin as (url & Hurl & Hin).
  exists url. split; [by apply list_elem_of_In|exact Hurl].
Qed.

(** X17. When the scraped-data file is there, [build_rag_system] does
    not scrape: whatever the network and the URL file, it ends the same
    way, and it leaves the JSON files and the text files as they were. *)
Theorem build_rag_system_reads_scraped_file (W W' : Web)
    (urls_file urls_file' data_file index_path : string) (disk : Disk)
    (docs : list (gmap string str)) :
  json_files disk !! data_file = Some docs ->
  build_rag_system (W := W) urls_file data_file index_path disk
  = build_rag_system (W := W') urls_file' data_file index_path disk
  /\ json_files (snd (build_rag_system (W := W) urls_file data_file
                        index_path disk)) = json_files disk
  /\ text_files (snd (build_rag_system (W := W) urls_file data_file
                        index_path disk)) = text_files disk.
Proof.
  intros Hfile. unfold build_rag_system. rewrite Hfile.
  split; [reflexivity|].
  destruct docs as [|doc rest]; [done|].
  destruct (build_index (doc :: rest) init) as [[[]|e] rag]; done.
Qed.

(** X18. A [build_rag_system] that raises the no-documents error
    raises it again on the files it leaves, whatever the network then
    gives: the scraped-data file is there, empty, and the scraper is not
    run again; the index files are untouched both times. *)
Theorem build_rag_system_failure_sticks (W W' : Web)
    (urls_file data_file index_path : string) (disk disk' : Disk) :
  build_rag_system (W := W) urls_file data_file index_path disk
  = (Failed ValueError_no_documents_scraped, disk') ->
  json_files disk' !! data_file = Some []
  /\ pickle_files disk' = pickle_files disk
  /\ build_rag_system (W := W') urls_file data_file index_path disk'
     = (Failed ValueError_no_documents_scraped, disk').
Proof.
  unfold build_rag_system.
  destruct (json_files disk !! data_file) as [docs|] eqn:Hfile.
  - destruct docs as [|doc rest].
    + intros [= <-]. by rewrite Hfile.
    + destruct (build_index (doc :: rest) init) as [[[]|e] rag]; discriminate.
  - unfold scrape_thread_contents.
    destruct (text_files disk !! urls_file) as [lines|]; [|discriminate].
    cbv zeta. destruct (scrape_threads (urls_of_lines lines)) as [|doc rest].
    + intros [= <-]. cbn [json_files pickle_files].
      by rewrite lookup_insert_eq.
    + destruct (build_index (doc :: rest) init) as [[[]|e] rag]; discriminate.
Qed.

(** What a [build_rag_system] that returns has done to the files. *)
Lemma build_rag_system_done {W : Web}
    (urls_file data_file index_path : string) (disk disk' : Disk)
    (system : AgnosRAG) :
  build_rag_system urls_file data_file index_path disk = (Done system, disk') ->
  exists files,
    pickle_files disk' = save_index system index_path files.
Proof.
  unfold build_rag_system.
  destruct (match json_files disk !! data_file with
            | Some documents => (Done documents, disk)
            | None => scrape_thread_contents urls_file data_file disk
            end) as [[docs|e] disk1]; [|discriminate].
  destruct docs as [|doc rest]; [discriminate|].
  destruct (build_index (doc :: rest) init) as [[[]|e] rag]; [|discriminate].
  intros [= <- <-]. cbn [pickle_files]. eauto.
Qed.

(** X19. The system [build_rag_system] returns is the one
    [load_rag_system] returns from the files it leaves, under the same
    index path. *)
Theorem build_then_load_rag_system {W : Web}
    (urls_file data_file index_path : string) (disk disk' : Disk)
    (system : AgnosRAG) :
  build_rag_system urls_file data_file index_path disk = (Done system, disk') ->
  load_rag_system index_path disk' = Done system.
Proof.
  intros Hbuild. apply build_rag_system_done in Hbuild as (files & Hfiles).
  unfold load_rag_system. by rewrite Hfiles, load_save_index.
Qed.

Lemma index_files_exist_saved (system : AgnosRAG) (index_path : string)
    (files : FileSystem) (disk : Disk) :
  pickle_files disk = save_index system index_path files ->
  index_files_exist index_path disk = true.
Proof.
  intros Hfiles. unfold index_files_exist. rewrite Hfiles. unfold save_index.
  cbn [vectorizer_files matrix_files metadata_files].
  rewrite !lookup_insert_eq.
  rewrite !bool_decide_eq_true_2 by eauto. reflexivity.
Qed.


(** X21. After an [initialize_system] that returned [True], another
    one on the files it left returns [True] again, with the same system
    in the session and the same files, whatever the session was and
    whatever the network gives: it loads and does not scrape or build. *)
Theorem initialize_system_again (W W' : Web) (session session2 session' : Session)
    (disk disk' : Disk) :
  initialize_system (W := W) session disk = (true, session', disk') ->
  initialize_system (W := W') session2 disk' = (true, session', disk').
Proof.
  unfold initialize_system.
  destruct (index_files_exist INDEX_PATH disk) eqn:Hexist.
  - destruct (load_rag_system INDEX_PATH disk) as [system|e] eqn:Hload;
      [|discriminate].
    intros [= <- <-]. by rewrite Hexist, Hload.
  - destruct (bool_decide (is_Some (text_files disk !! THREAD_URLS_FILE)));
      [|discriminate].
    destruct (build_rag_system THREAD_URLS_FILE SCRAPED_DATA_FILE INDEX_PATH
                disk) as [[system|e] disk1] eqn:Hbuild; [|discriminate].
    intros [= <- <-].
    apply build_rag_system_done in Hbuild as (files & Hfiles).
    rewrite (index_files_exist_saved system INDEX_PATH files disk1 Hfiles).
    unfold load_rag_system. by rewrite Hfiles, load_save_index.
Qed.

End System_extras.

Lemma Qgt_bool_mono (c c' t : Q) :
  (c <= c')%Q -> Qgt_bool c t = true -> Qgt_bool c' t = true.
Proof.
  unfold Qgt_bool. intros Hle Hc. apply negb_true_iff in Hc.
  apply negb_true_iff. destruct (Qle_bool c' t) eqn:Hc'; [|done].
  apply Qle_bool_iff in Hc'.
  assert (Qle_bool c t = true) as Hct
    by (apply Qle_bool_iff; by eapply Qle_trans).
  congruence.
Qed.

(** X22. [get_confidence_color] rises with the confidence: above a
    confidence shown as high everything is high, and below one shown as
    low everything is low. *)
Theorem get_confidence_color_monotone (c c' : Q) :
  (c <= c')%Q ->
  (get_confidence_color c = "confidence-high" ->
   get_confidence_color c' = "confidence-high")
  /\ (get_confidence_color c' = "confidence-low" ->
      get_confidence_color c = "confidence-low").
Proof.
  intros Hle. unfold get_confidence_color.
  pose proof (Qgt_bool_mono c c' FLOAT_0_3 Hle) as H3.
  pose proof (Qgt_bool_mono c c' FLOAT_0_1 Hle) as H1.
  destruct (Qgt_bool c FLOAT_0_3), (Qgt_bool c FLOAT_0_1);
    try rewrite (H3 eq_refl); try rewrite (H1 eq_refl);
    destruct (Qgt_bool c' FLOAT_0_3), (Qgt_bool c' FLOAT_0_1);
    split; intros; done.
Qed.

(** ** The normalizer on ASCII text *)

Lemma ascii_cases (P : N -> bool) :
  forallb P ascii_range = true ->
  forall c, is_ascii c = true -> P c = true.
Proof.
  intros Hall c Hc. rewrite forallb_forall in Hall. apply Hall.
  unfold ascii_range. apply in_map_iff. exists (N.to_nat c).
  split; [apply N2Nat.id|]. apply in_seq.
  unfold is_ascii in Hc. apply N.ltb_lt in Hc. lia.
Qed.

Lemma is_output_char_ascii (c : N) :
  is_output_char c = true -> is_ascii c = true.
Proof.
  unfold is_output_char, is_ascii. intros Hc. apply N.ltb_lt.
  repeat (apply orb_true_iff in Hc as [Hc|Hc]);
    repeat (apply andb_true_iff in Hc as [? Hc]);
    repeat match goal with
           | H : (_ <=? _)%N = true |- _ => apply N.leb_le in H
           | H : (_ =? _)%N = true |- _ => apply N.eqb_eq in H
           end; lia.
Qed.

Section Normalizer_extras.
Context {U : UnicodeData}.

Lemma ascii_lower_isspace (c : N) :
  is_ascii c = true -> isspace (ascii_lower c) = isspace c.
Proof.
  intros Hc.
  apply (ascii_cases
           (fun c => bool_decide (isspace (ascii_lower c) = isspace c)))
    in Hc; [by apply bool_decide_eq_true_1 in Hc|].
  vm_compute. reflexivity.
Qed.

Lemma ascii_lower_output (c : N) :
  is_ascii c = true -> in_kept_class c = true ->
  (isspace c = true -> c = SPACE) ->
  is_output_char (ascii_lower c) = true.
Proof.
  intros Hc Hkept Hspace.
  pose proof (ascii_cases
    (fun c => implb (in_kept_class c)
                (implb (implb (isspace c) (c =? SPACE)%N)
                   (is_output_char (ascii_lower c))))) as Hcases.
  specialize (Hcases ltac:(vm_compute; reflexivity) c Hc).
  cbv beta in Hcases.
  rewrite Hkept in Hcases. cbn [implb] in Hcases.
  destruct (isspace c) eqn:Hs; cbn [implb] in Hcases.
  - rewrite (Hspace eq_refl) in *. exact Hcases.
  - exact Hcases.
Qed.

Lemma output_char_facts (c : N) :
  is_output_char c = true ->
  in_kept_class c = true /\ ascii_lower c = c
  /\ (isspace c = true -> c = SPACE).
Proof.
  intros Hout. pose proof (is_output_char_ascii c Hout) as Hc.
  pose proof (ascii_cases
    (fun c => implb (is_output_char c)
                (in_kept_class c && (ascii_lower c =? c)%N
                 && implb (isspace c) (c =? SPACE)%N))) as Hcases.
  specialize (Hcases ltac:(vm_compute; reflexivity) c Hc).
  cbv beta in Hcases.
  rewrite Hout in Hcases. cbn [implb] in Hcases.
  apply andb_true_iff in Hcases as [Hcases Hspace].
  apply andb_true_iff in Hcases as [Hkept Hlower].
  split_and!; [done|by apply N.eqb_eq|].
  intros Hs. rewrite Hs in Hspace. by apply N.eqb_eq.
Qed.


Lemma forallb_Forall_true {A : Type} (f : A -> bool) (l : list A) :
  forallb f l = true <-> Forall (fun x => f x = true) l.
Proof.
  induction l as [|x l IH]; simpl.
  - split; [constructor|reflexivity].
  - rewrite andb_true_iff, IH. split.
    + intros [? ?]. by constructor.
    + intros H. by apply Forall_cons in H.
Qed.

Lemma has_whitespace_run_cons (c : N) (text : str) :
  has_whitespace_run (c :: text)
  = (isspace c && starts_with_space text) || has_whitespace_run text.
Proof. destruct text; simpl; [by rewrite andb_false_r|reflexivity]. Qed.

Lemma has_whitespace_run_app (l1 l2 : str) :
  has_whitespace_run (l1 ++ l2) = false ->
  has_whitespace_run l1 = false /\ has_whitespace_run l2 = false.
Proof.
  induction l1 as [|c l1 IH]; [done|].
  rewrite <- app_comm_cons, !has_whitespace_run_cons.
  intros H. apply orb_false_iff in H as [Hhead Htail].
  destruct (IH Htail) as [H1 H2]. split; [|exact H2].
  rewrite H1, orb_false_r.
  destruct l1; [by rewrite andb_false_r|exact Hhead].
Qed.

(** *** The first substitution *)

Lemma sub_whitespace_from_Forall (P : N -> Prop) (in_run : bool) (text : str) :
  P SPACE -> Forall P text -> Forall P (sub_whitespace_from in_run text).
Proof.
  intros Hspace Htext. revert in_run.
  induction Htext as [|c rest Hc _ IH]; intros in_run; simpl; [constructor|].
  destruct (isspace c); [destruct in_run|]; auto.
Qed.

Lemma sub_whitespace_from_spaces (in_run : bool) (text : str) :
  Forall (fun c => isspace c = true -> c = SPACE)
    (sub_whitespace_from in_run text).
Proof.
  revert in_run. induction text as [|c rest IH]; intros in_run; simpl;
    [constructor|].
  destruct (isspace c) eqn:Hc; [destruct in_run|]; auto.
  constructor; [congruence|auto].
Qed.

Lemma sub_whitespace_from_run (in_run : bool) (text : str) :
  has_whitespace_run (sub_whitespace_from in_run text) = false
  /\ (in_run = true ->
      starts_with_space (sub_whitespace_from in_run text) = false).
Proof.
  revert in_run. induction text as [|c rest IH]; intros in_run;
    [done|]. cbn [sub_whitespace_from].
  destruct (isspace c) eqn:Hc.
  - destruct (IH true) as [Hrun Hstart]. destruct in_run; [auto|].
    split; [|discriminate].
    by rewrite has_whitespace_run_cons, Hrun, (Hstart eq_refl), andb_false_r.
  - destruct (IH false) as [Hrun _].
    rewrite has_whitespace_run_cons, Hrun, Hc. done.
Qed.

Lemma sub_whitespace_from_length (in_run : bool) (text : str) :
  length (sub_whitespace_from in_run text) <= length text.
Proof.
  revert in_run. induction text as [|c rest IH]; intros in_run; simpl;
    [done|].
  pose proof (IH true). pose proof (IH false).
  destruct (isspace c); [destruct in_run|]; simpl; lia.
Qed.

Lemma sub_whitespace_from_fixed (in_run : bool) (text : str) :
  Forall (fun c => isspace c = true -> c = SPACE) text ->
  has_whitespace_run text = false ->
  (in_run = true -> starts_with_space text = false) ->
  sub_whitespace_from in_run text = text.
Proof.
  intros Hspaces. revert in_run.
  induction Hspaces as [|c rest Hc _ IH]; intros in_run Hrun Hstart; [done|].
  rewrite has_whitespace_run_cons in Hrun.
  apply orb_false_iff in Hrun as [Hhead Hrun].
  cbn [sub_whitespace_from]. destruct (isspace c) eqn:Hs.
  - destruct in_run; [by specialize (Hstart eq_refl); simpl in Hstart; congruence|].
    rewrite (Hc eq_refl), IH; [done..|]. intros _. exact Hhead.
  - rewrite IH; [done..|discriminate].
Qed.

(** *** The second substitution *)

Lemma sub_special_kept (text : str) :
  Forall (fun c => in_kept_class c = true) text -> sub_special text = text.
Proof.
  induction 1 as [|c rest Hc _ IH]; [done|].
  unfold sub_special in *. cbn [List.map]. by rewrite Hc, IH.
Qed.

Lemma in_kept_class_space : in_kept_class SPACE = true.
Proof. reflexivity. Qed.

(** *** Stripping *)

Lemma lstrip_suffix (text : str) : exists front, text = front ++ lstrip text.
Proof.
  induction text as [|c rest [front IH]]; [by exists []|]. simpl.
  destruct (isspace c); [|by exists []].
  exists (c :: front). simpl. by rewrite <- IH.
Qed.

Lemma lstrip_starts (text : str) : starts_with_space (lstrip text) = false.
Proof.
  induction text as [|c rest IH]; [done|]. simpl.
  destruct (isspace c) eqn:Hc; [exact IH|]. simpl. exact Hc.
Qed.

Lemma lstrip_fixed (text : str) :
  starts_with_space text = false -> lstrip text = text.
Proof. destruct text as [|c rest]; [done|]. simpl. by intros ->. Qed.

Lemma strip_prefix_suffix (text : str) :
  exists front back, text = front ++ strip text ++ back.
Proof.
  destruct (lstrip_suffix text) as [front Hfront].
  destruct (lstrip_suffix (rev (lstrip text))) as [back Hback].
  exists front, (rev back). unfold strip. rewrite <- rev_app_distr, <- Hback.
  by rewrite rev_involutive.
Qed.

Lemma strip_Forall (P : N -> Prop) (text : str) :
  Forall P text -> Forall P (strip text).
Proof.
  intros Htext. destruct (strip_prefix_suffix text) as (front & back & Heq).
  rewrite Heq in Htext. apply Forall_app in Htext as [_ Htext].
  by apply Forall_app in Htext as [Htext _].
Qed.

Lemma strip_run (text : str) :
  has_whitespace_run text = false -> has_whitespace_run (strip text) = false.
Proof.
  intros Hrun. destruct (strip_prefix_suffix text) as (front & back & Heq).
  rewrite Heq in Hrun. apply has_whitespace_run_app in Hrun as [_ Hrun].
  by apply has_whitespace_run_app in Hrun as [Hrun _].
Qed.

Lemma strip_length (text : str) : length (strip text) <= length text.
Proof.
  destruct (strip_prefix_suffix text) as (front & back & Heq).
  rewrite Heq at 2. rewrite !length_app. lia.
Qed.

Lemma strip_trimmed (text : str) :
  starts_with_space (strip text) = false
  /\ starts_with_space (rev (strip text)) = false.
Proof.
  split.
  - destruct (lstrip_suffix (rev (lstrip text))) as [back Hback].
    pose proof (lstrip_starts text) as Hstart.
    apply (f_equal (@rev N)) in Hback.
    rewrite rev_involutive, rev_app_distr in Hback.
    fold (strip text) in Hback. rewrite Hback in Hstart.
    destruct (strip text); [done|exact Hstart].
  - unfold strip. rewrite rev_involutive. apply lstrip_starts.
Qed.

Lemma strip_fixed (text : str) :
  starts_with_space text = false ->
  starts_with_space (rev text) = false ->
  strip text = text.
Proof.
  intros Hfront Hback. unfold strip.
  by rewrite (lstrip_fixed text), (lstrip_fixed (rev text)), rev_involutive.
Qed.

(** *** Lower-casing *)

Lemma lower_ascii (text : str) :
  Forall (fun c => is_ascii c = true) text ->
  lower text = List.map ascii_lower text.
Proof.
  intros Htext. unfold lower. apply forallb_Forall_true in Htext.
  by rewrite Htext.
Qed.

Lemma map_lower_starts (text : str) :
  Forall (fun c => is_ascii c = true) text ->
  starts_with_space (List.map ascii_lower text) = starts_with_space text.
Proof.
  destruct 1 as [|c rest Hc _]; [done|]. simpl. by apply ascii_lower_isspace.
Qed.

Lemma map_lower_run (text : str) :
  Forall (fun c => is_ascii c = true) text ->
  has_whitespace_run (List.map ascii_lower text) = has_whitespace_run text.
Proof.
  induction 1 as [|c rest Hc Hrest IH]; [done|].
  cbn [List.map]. rewrite !has_whitespace_run_cons, IH.
  by rewrite map_lower_starts, ascii_lower_isspace.
Qed.

Lemma map_lower_output (text : str) :
  Forall (fun c => is_output_char c = true) text ->
  List.map ascii_lower text = text.
Proof.
  induction 1 as [|c rest Hc _ IH]; [done|]. simpl.
  destruct (output_char_facts c Hc) as (_ & -> & _). by rewrite IH.
Qed.

(** *** The whole of [preprocess_text] *)

Lemma sub_special_props (text : str) :
  Forall (fun c => isspace c = true -> c = SPACE) text ->
  Forall (fun c => in_kept_class c = true) (sub_special text)
  /\ Forall (fun c => isspace c = true -> c = SPACE) (sub_special text).
Proof.
  induction 1 as [|c rest Hc _ [IHkept IHspace]]; [split; constructor|].
  unfold sub_special in *. cbn [List.map].
  destruct (in_kept_class c) eqn:Hkept; split; constructor; auto.
Qed.

Lemma sub_special_ascii (text : str) :
  Forall (fun c => is_ascii c = true) text ->
  Forall (fun c => is_ascii c = true) (sub_special text).
Proof.
  induction 1 as [|c rest Hc _ IH]; [constructor|].
  unfold sub_special in *. cbn [List.map].
  destruct (in_kept_class c); constructor; auto.
Qed.

Lemma preprocess_text_ascii (text : str) :
  Forall (fun c => is_ascii c = true) text ->
  preprocess_text text
  = List.map ascii_lower (strip (sub_special (sub_whitespace text))).
Proof.
  intros Htext. destruct text as [|c rest]; [reflexivity|].
  unfold preprocess_text. apply lower_ascii, strip_Forall, sub_special_ascii.
  by apply sub_whitespace_from_Forall.
Qed.

Lemma preprocess_text_ascii_props (text : str) :
  Forall (fun c => is_ascii c = true) text ->
  Forall (fun c => is_output_char c = true) (preprocess_text text)
  /\ starts_with_space (preprocess_text text) = false
  /\ starts_with_space (rev (preprocess_text text)) = false
  /\ length (preprocess_text text) <= length text.
Proof.
  intros Htext. rewrite (preprocess_text_ascii text Htext).
  set (mid := sub_special (sub_whitespace text)).
  assert (Forall (fun c => is_ascii c = true) mid) as Hascii.
  { apply sub_special_ascii. by apply sub_whitespace_from_Forall. }
  destruct (sub_special_props (sub_whitespace text)
              (sub_whitespace_from_spaces false text)) as [Hkept Hspaces].
  fold mid in Hkept, Hspaces.
  destruct (strip_trimmed mid) as [Hfront Hback].
  split_and!.
  - apply Forall_forall. intros c Hc.
    apply list_elem_of_In, in_map_iff in Hc as (c0 & <- & Hc0).
    apply list_elem_of_In in Hc0.
    pose proof (strip_Forall _ mid Hascii) as H1.
    pose proof (strip_Forall _ mid Hkept) as H2.
    pose proof (strip_Forall _ mid Hspaces) as H3.
    rewrite Forall_forall in H1, H2, H3.
    apply ascii_lower_output; auto.
  - rewrite map_lower_starts; [exact Hfront|by apply strip_Forall].
  - rewrite <- map_rev, map_lower_starts; [exact Hback|].
    apply Forall_rev. by apply strip_Forall.
  - rewrite length_map. etrans; [apply strip_length|].
    unfold mid, sub_special. rewrite length_map.
    apply sub_whitespace_from_length.
Qed.

Lemma is_output_char_space : is_output_char SPACE = true.
Proof. reflexivity. Qed.

(** On a text of output characters the normalizer only collapses the
    runs of spaces and strips. *)
Lemma preprocess_text_output (text : str) :
  Forall (fun c => is_output_char c = true) text ->
  preprocess_text text = strip (sub_whitespace text).
Proof.
  intros Htext.
  assert (Forall (fun c => is_ascii c = true) text) as Hascii.
  { eapply Forall_impl; [exact Htext|]. apply is_output_char_ascii. }
  rewrite (preprocess_text_ascii text Hascii).
  assert (Forall (fun c => is_output_char c = true) (sub_whitespace text))
    as Hsub by (by apply sub_whitespace_from_Forall).
  rewrite sub_special_kept.
  - apply map_lower_output. by apply strip_Forall.
  - eapply Forall_impl; [exact Hsub|]. intros c Hc.
    by destruct (output_char_facts c Hc).
Qed.

Lemma preprocess_text_fixed (text : str) :
  Forall (fun c => is_output_char c = true) text ->
  has_whitespace_run text = false ->
  starts_with_space text = false ->
  starts_with_space (rev text) = false ->
  preprocess_text text = text.
Proof.
  intros Htext Hrun Hfront Hback. rewrite preprocess_text_output by done.
  unfold sub_whitespace. rewrite sub_whitespace_from_fixed; [| |done|done].
  - by apply strip_fixed.
  - eapply Forall_impl; [exact Htext|]. intros c Hc.
    by destruct (output_char_facts c Hc) as (_ & _ & ?).
Qed.

Lemma sub_whitespace_from_all_spaces (text : str) :
  Forall (fun c => isspace c = true) text ->
  sub_whitespace_from true text = [].
Proof. induction 1 as [|c rest Hc _ IH]; simpl; [done|by rewrite Hc]. Qed.

(** X23. A text of whitespace characters only, the empty text among
    them, normalizes to the empty text. *)
Theorem preprocess_text_of_whitespace (text : str) :
  forallb isspace text = true -> preprocess_text text = [].
Proof.
  intros Htext. apply forallb_Forall_true in Htext.
  destruct Htext as [|c rest Hc Hrest]; [reflexivity|].
  unfold preprocess_text, sub_whitespace. cbn [sub_whitespace_from].
  rewrite Hc, sub_whitespace_from_all_spaces by done. reflexivity.
Qed.

(** X24. The normalized form of an ASCII text is made of small
    letters, digits, underscores, spaces and the marks [.,!?-] only, has
    no whitespace at either end, and is not longer than the text. *)
Theorem preprocess_text_ascii_output (text : str) :
  forallb is_ascii text = true ->
  forallb is_output_char (preprocess_text text) = true
  /\ starts_with_space (preprocess_text text) = false
  /\ starts_with_space (rev (preprocess_text text)) = false
  /\ length (preprocess_text text) <= length text.
Proof.
  intros Htext. apply forallb_Forall_true in Htext.
  destruct (preprocess_text_ascii_props text Htext) as (H1 & H2 & H3 & H4).
  split_and!; [by apply forallb_Forall_true|done..].
Qed.

(** X25. On an ASCII text in which no character is special, that is
    every character is of the class the second substitution keeps, the
    normalizer leaves no whitespace run and is idempotent. *)
Theorem preprocess_text_idempotent_without_special (text : str) :
  forallb is_ascii text = true ->
  forallb in_kept_class text = true ->
  has_whitespace_run (preprocess_text text) = false
  /\ preprocess_text (preprocess_text text) = preprocess_text text.
Proof.
  intros Hascii Hkept. apply forallb_Forall_true in Hascii, Hkept.
  destruct (preprocess_text_ascii_props text Hascii) as (Hout & Hf & Hb & _).
  assert (has_whitespace_run (preprocess_text text) = false) as Hrun.
  { rewrite (preprocess_text_ascii text Hascii).
    rewrite sub_special_kept
      by (by apply sub_whitespace_from_Forall).
    rewrite map_lower_run
      by (apply strip_Forall; by apply sub_whitespace_from_Forall).
    apply strip_run, sub_whitespace_from_run. }
  split; [exact Hrun|]. by apply preprocess_text_fixed.
Qed.

(** X26. On any ASCII text a second pass of the normalizer leaves no
    whitespace run, and a third pass changes nothing more. *)
Theorem preprocess_text_twice_is_stable (text : str) :
  forallb is_ascii text = true ->
  has_whitespace_run (preprocess_text (preprocess_text text)) = false
  /\ preprocess_text (preprocess_text (preprocess_text text))
     = preprocess_text (preprocess_text text).
Proof.
  intros Hascii. apply forallb_Forall_true in Hascii.
  destruct (preprocess_text_ascii_props text Hascii) as (Hout & _).
  assert (Forall (fun c => is_ascii c = true) (preprocess_text text))
    as Hascii1.
  { eapply Forall_impl; [exact Hout|]. apply is_output_char_ascii. }
  destruct (preprocess_text_ascii_props _ Hascii1) as (Hout2 & Hf & Hb & _).
  assert (has_whitespace_run (preprocess_text (preprocess_text text)) = false)
    as Hrun.
  { rewrite (preprocess_text_output _ Hout).
    apply strip_run, sub_whitespace_from_run. }
  split; [exact Hrun|]. by apply preprocess_text_fixed.
Qed.

End Normalizer_extras.

(** ** Short ASCII records *)

Section Short_records.
Context {U : UnicodeData} {SK : Sklearn}.

(** X27. A record in ASCII whose title and content, with the space
    between them, have at most 50 characters is never indexed:
    normalizing does not lengthen the text, so [build_index] goes as if
    the record were not in the list. *)
Theorem build_index_ignores_short_ascii_records
    (front back : list (gmap string str)) (doc : gmap string str)
    (self : AgnosRAG) :
  forallb is_ascii (combined_text doc) = true ->
  length (combined_text doc) <= 50 ->
  build_index (front ++ doc :: back) self = build_index (front ++ back) self.
Proof.
  intros Hascii Hshort. apply forallb_Forall_true in Hascii.
  destruct (preprocess_text_ascii_props _ Hascii) as (_ & _ & _ & Hlen).
  rewrite !build_index_eq, surviving_drop; [reflexivity|].
  unfold survives, cleaned_text_of. apply Nat.ltb_ge. lia.
Qed.

End Short_records.

(** ** The extras at work *)


Lemma search_at_most_k_any_object_witness :
  (Z.of_nat (length (returned_or []
     (fst (search (U := ascii_tables) (AS := stable_numpy)
             (of_ascii "fever") 1 corpus_index)))) <= 1)%Z
  /\ Forall (fun r => (0 < score r)%Q)
       (returned_or []
          (fst (search (U := ascii_tables) (AS := stable_numpy)
                  (of_ascii "fever") 1 corpus_index))).
Proof.
  apply (search_at_most_k_any_object (U := ascii_tables) (AS := stable_numpy)
           (of_ascii "fever") 1 corpus_index); [lia|].
  vm_compute. reflexivity.
Defined.



Lemma answer_question_raises_as_search_witness :
  answer_question (U := ascii_tables) (SK := word_sklearn)
    (AS := stable_numpy) (of_ascii "fever") 3 init
  = (Raised ValueError_index_not_built, init).
Proof.
  apply (answer_question_raises_as_search (U := ascii_tables)
           (AS := stable_numpy) (of_ascii "fever") 3 init).
  left. reflexivity.
Defined.

Lemma answer_question_lengths_witness :
  exists a,
    fst (answer_question (U := ascii_tables) (AS := stable_numpy)
           (of_ascii "fever") 3 corpus_index) = Returned a
    /\ length (answer a) <= 921
    /\ Forall (fun source =>
         exists shown,
           content_snippet source = shown ++ of_ascii "..."
           /\ length shown <= 300)
         (sources a).
Proof.
  exists (returned_or
            {| answer := []; sources := []; confidence := 0 |}
            (fst (answer_question (U := ascii_tables) (AS := stable_numpy)
                    (of_ascii "fever") 3 corpus_index))).
  assert (fst (answer_question (U := ascii_tables) (AS := stable_numpy)
                 (of_ascii "fever") 3 corpus_index)
          = Returned
              (returned_or
                 {| answer := []; sources := []; confidence := 0 |}
                 (fst (answer_question (U := ascii_tables)
                         (AS := stable_numpy) (of_ascii "fever") 3
                         corpus_index)))) as Hreturned
    by (vm_compute; reflexivity).
  split; [exact Hreturned|].
  exact (answer_question_lengths _ _ _ _ Hreturned).
Defined.

Lemma answer_question_confidence_sign_witness :
  exists a,
    fst (answer_question (U := ascii_tables) (AS := stable_numpy)
           (of_ascii "fever") 3 corpus_index) = Returned a
    /\ (sources a = [] -> confidence a = 0%Q)
    /\ (sources a <> [] -> (0 < confidence a)%Q).
Proof.
  exists (returned_or
            {| answer := []; sources := []; confidence := 0 |}
            (fst (answer_question (U := ascii_tables) (AS := stable_numpy)
                    (of_ascii "fever") 3 corpus_index))).
  assert (fst (answer_question (U := ascii_tables) (AS := stable_numpy)
                 (of_ascii "fever") 3 corpus_index)
          = Returned
              (returned_or
                 {| answer := []; sources := []; confidence := 0 |}
                 (fst (answer_question (U := ascii_tables)
                         (AS := stable_numpy) (of_ascii "fever") 3
                         corpus_index)))) as Hreturned
    by (vm_compute; reflexivity).
  split; [exact Hreturned|].
  exact (answer_question_confidence_sign _ _ _ _ Hreturned).
Defined.


Lemma build_index_text_and_snippet_lengths_witness :
  Forall (fun text => 50 < length text) (documents corpus_index)
  /\ Forall (fun meta => length (original_content meta) <= 1000)
       (metadata corpus_index).
Proof.
  apply (build_index_text_and_snippet_lengths (U := ascii_tables) corpus init).
  vm_compute. reflexivity.
Defined.

Lemma build_index_ignores_short_records_witness :
  build_index (U := ascii_tables) (SK := word_sklearn)
    ([fever_thread_0] ++ short_thread :: [fever_thread_1; headache_thread])
    init
  = build_index (U := ascii_tables) (SK := word_sklearn)
      ([fever_thread_0] ++ [fever_thread_1; headache_thread]) init.
Proof.
  apply build_index_ignores_short_records. vm_compute. lia.
Defined.

Lemma build_index_drops_empty_records_witness :
  build_index (U := ascii_tables) (SK := word_sklearn)
    ([fever_thread_0] ++ error_record :: [fever_thread_1; headache_thread])
    init
  = build_index (U := ascii_tables) (SK := word_sklearn)
      ([fever_thread_0] ++ [fever_thread_1; headache_thread]) init.
Proof.
  apply build_index_drops_empty_records; vm_compute; reflexivity.
Defined.

Lemma build_index_failure_empties_index_witness :
  documents (snd (build_index (U := ascii_tables) [short_thread] corpus_index))
  = []
  /\ metadata (snd (build_index (U := ascii_tables) [short_thread]
                      corpus_index)) = []
  /\ vectorizer (snd (build_index (U := ascii_tables) [short_thread]
                        corpus_index)) = vectorizer corpus_index
  /\ tfidf_matrix (snd (build_index (U := ascii_tables) [short_thread]
                          corpus_index)) = tfidf_matrix corpus_index
  /\ forall query k results,
       fst (search (U := ascii_tables) (AS := stable_numpy) query k
              (snd (build_index (U := ascii_tables) [short_thread]
                      corpus_index))) = Returned results ->
       results = [].
Proof.
  apply (build_index_failure_empties_index (U := ascii_tables)
           (AS := stable_numpy) [short_thread] corpus_index).
  vm_compute. reflexivity.
Defined.

Lemma build_index_fit_failure_blocks_search_witness :
  fst (search (U := ascii_tables) (AS := stable_numpy) (of_ascii "fever") 3
         (snd (build_index (U := ascii_tables) [fever_thread_0]
                 corpus_index)))
  = Raised NotFittedError.
Proof.
  apply (build_index_fit_failure_blocks_search (U := ascii_tables)
           (AS := stable_numpy) [fever_thread_0] corpus_index).
  vm_compute. reflexivity.
Defined.


Lemma build_rag_system_reads_scraped_file_witness :
  build_rag_system (U := ascii_tables) (W := canned_web)
    "threads.txt" "scraped_threads.json" "agnos_health_index" started_disk
  = build_rag_system (U := ascii_tables) (W := dead_web)
      "missing.txt" "scraped_threads.json" "agnos_health_index" started_disk.
Proof.
  eapply (build_rag_system_reads_scraped_file (U := ascii_tables)
            canned_web dead_web "threads.txt" "missing.txt"
            "scraped_threads.json" "agnos_health_index" started_disk
            [fever_thread_0; fever_thread_1; headache_thread]).
  vm_compute. reflexivity.
Defined.

Lemma build_rag_system_failure_sticks_witness :
  json_files barren_disk !! "scraped_threads.json" = Some []
  /\ pickle_files barren_disk = pickle_files first_disk
  /\ build_rag_system (U := ascii_tables) (W := canned_web)
       "threads.txt" "scraped_threads.json" "agnos_health_index" barren_disk
     = (Failed ValueError_no_documents_scraped, barren_disk).
Proof.
  apply (build_rag_system_failure_sticks (U := ascii_tables)
           dead_web canned_web "threads.txt" "scraped_threads.json"
           "agnos_health_index" first_disk barren_disk).
  vm_compute. reflexivity.
Defined.

Lemma build_then_load_rag_system_witness :
  load_rag_system "agnos_health_index"
    (snd (build_rag_system (U := ascii_tables) (W := canned_web)
            "threads.txt" "scraped_threads.json" "agnos_health_index"
            first_disk))
  = Done corpus_index.
Proof.
  apply (build_then_load_rag_system (U := ascii_tables) (W := canned_web)
           "threads.txt" "scraped_threads.json" "agnos_health_index"
           first_disk).
  vm_cast_no_check
    (eq_refl
       (build_rag_system (U := ascii_tables) (W := canned_web)
          "threads.txt" "scraped_threads.json" "agnos_health_index"
          first_disk)).
Defined.


Lemma initialize_system_again_witness :
  initialize_system (U := ascii_tables) (W := dead_web)
    fresh_session started_disk
  = (true, started_session, started_disk).
Proof.
  apply (initialize_system_again (U := ascii_tables) canned_web dead_web
           fresh_session fresh_session started_session first_disk
           started_disk).
  vm_cast_no_check
    (eq_refl
       (initialize_system (U := ascii_tables) (W := canned_web)
          fresh_session first_disk)).
Defined.

Lemma get_confidence_color_monotone_witness :
  (get_confidence_color (2 # 5) = "confidence-high" ->
   get_confidence_color (1 # 2) = "confidence-high")
  /\ (get_confidence_color (1 # 2) = "confidence-low" ->
      get_confidence_color (2 # 5) = "confidence-low").
Proof. apply get_confidence_color_monotone. vm_compute. discriminate. Defined.

Lemma preprocess_text_of_whitespace_witness :
  preprocess_text (U := ascii_tables) [32%N; 9%N; 10%N; 160%N] = [].
Proof. apply preprocess_text_of_whitespace. reflexivity. Defined.

Lemma preprocess_text_ascii_output_witness :
  forallb is_output_char
    (preprocess_text (U := ascii_tables) (of_ascii "  Hello,   World! #1 "))
  = true
  /\ starts_with_space
       (preprocess_text (U := ascii_tables) (of_ascii "  Hello,   World! #1 "))
     = false
  /\ starts_with_space
       (rev (preprocess_text (U := ascii_tables)
               (of_ascii "  Hello,   World! #1 "))) = false
  /\ length (preprocess_text (U := ascii_tables)
               (of_ascii "  Hello,   World! #1 "))
     <= length (of_ascii "  Hello,   World! #1 ").
Proof. apply preprocess_text_ascii_output. reflexivity. Defined.

Lemma preprocess_text_idempotent_without_special_witness :
  has_whitespace_run
    (preprocess_text (U := ascii_tables) (of_ascii "  Hello,   World!  "))
  = false
  /\ preprocess_text (U := ascii_tables)
       (preprocess_text (U := ascii_tables) (of_ascii "  Hello,   World!  "))
     = preprocess_text (U := ascii_tables) (of_ascii "  Hello,   World!  ").
Proof.
  apply preprocess_text_idempotent_without_special; reflexivity.
Defined.

Lemma preprocess_text_twice_is_stable_witness :
  has_whitespace_run
    (preprocess_text (U := ascii_tables)
       (preprocess_text (U := ascii_tables) (of_ascii "a@@b"))) = false
  /\ preprocess_text (U := ascii_tables)
       (preprocess_text (U := ascii_tables)
          (preprocess_text (U := ascii_tables) (of_ascii "a@@b")))
     = preprocess_text (U := ascii_tables)
         (preprocess_text (U := ascii_tables) (of_ascii "a@@b")).
Proof. apply preprocess_text_twice_is_stable. reflexivity. Defined.

Lemma build_index_ignores_short_ascii_records_witness :
  build_index (U := ascii_tables) (SK := word_sklearn)
    ([fever_thread_0] ++ short_thread :: [fever_thread_1; headache_thread])
    corpus_index
  = build_index (U := ascii_tables) (SK := word_sklearn)
      ([fever_thread_0] ++ [fever_thread_1; headache_thread]) corpus_index.
Proof.
  apply build_index_ignores_short_ascii_records; [reflexivity|].
  vm_compute. lia.
Defined.
